(** * measure-review-time: the review lead-time pipeline of [src/index.ts]

    The program lists the merged and approved pull requests of a repository,
    derives for each of them the time to the first response of a reviewer and
    the time to the approval, filters the records and prints percentiles.

    Conventions of the model.
    - A JavaScript number is [NaN] or an exact rational [Num q]: every number
      of the pipeline comes from integer millisecond time values by
      subtraction, division by a constant, rounding and interpolation.  The
      binary64 rounding of [/] and the infinities are not modelled: the
      rational result of a division can differ from the double of the code
      in its last bit, which shows in the last digit that [toFixed] prints
      (69 minutes: 1.15 hours here, the double just below in the code) and
      in lead times over differences beyond 2^52 milliseconds.  The
      statements that depend on it say the range where the two agree, and
      module [Binary64] has the same functions on doubles for the
      examples.
    - A string is a [string] of bytes (UTF-8 for the Japanese literals).
    - The answers of the REST API are inputs: a pull request comes with its
      review comments, its reviews and its timeline events.
    - [console.log] appends the list of its arguments to the console. *)

From Corelib Require Import PrimFloat SpecFloat FloatOps.
From Stdlib Require Import ZArith QArith Qround Qabs List String Ascii Bool Lia Lqa.
From Stdlib Require Import DecimalString.
Import ListNotations.

(** ** JavaScript numbers *)

Module Number.

Inductive number : Type :=
| NaN : number
| Num (q : Q) : number.

(** Integers, such as the time value of a valid [Date]. *)
Definition of_Z (z : Z) : number := Num (inject_Z z).

(** The result of a rounding: [None] stands for NaN. *)
Definition of_int (r : option Z) : number :=
  match r with
  | Some z => of_Z z
  | None => NaN
  end.

Definition isNaN (a : number) : bool :=
  match a with
  | NaN => true
  | Num _ => false
  end.

(** [a - b] *)
Definition sub (a b : number) : number :=
  match a, b with
  | Num x, Num y => Num (Qred (x - y))
  | _, _ => NaN
  end.

(** [a + b] *)
Definition add (a b : number) : number :=
  match a, b with
  | Num x, Num y => Num (Qred (x + y))
  | _, _ => NaN
  end.

(** [a * b] *)
Definition mul (a b : number) : number :=
  match a, b with
  | Num x, Num y => Num (Qred (x * y))
  | _, _ => NaN
  end.

(** [a / c] for a positive integer literal [c] (1000, 60 and 24 in the
    source). *)
Definition divp (a : number) (c : positive) : number :=
  match a with
  | Num x => Num (Qred (x / inject_Z (Zpos c)))
  | NaN => NaN
  end.

(** [a > b] and [a < b]: false as soon as one side is NaN. *)
Definition gt (a b : number) : bool :=
  match a, b with
  | Num x, Num y => negb (Qle_bool x y)
  | _, _ => false
  end.

Definition lt (a b : number) : bool := gt b a.

(** [a <= b], used in statements only. *)
Definition le (a b : number) : bool :=
  match a, b with
  | Num x, Num y => Qle_bool x y
  | _, _ => false
  end.

End Number.

Export Number.

(** ** JavaScript strings and values *)

Module JSString.

Open Scope string_scope.

Definition Z_toString (z : Z) : string :=
  NilZero.string_of_int (Z.to_int z).

(** [String(x)] for the result of a rounding: an integer or NaN. *)
Definition int_toString (r : option Z) : string :=
  match r with
  | Some z => Z_toString z
  | None => "NaN"
  end.

(** [x.toFixed(1)], in fixed notation (numbers below 10^21; from 10^21 the
    code prints the exponent notation, which is not modelled): with [n] the
    integer nearest to ten times the absolute value, the larger one on a
    tie, the digits of [n] with a point before the last one. *)
Definition toFixed1 (x : number) : string :=
  match x with
  | NaN => "NaN"
  | Num q =>
      let n := Qfloor (Qabs q * inject_Z 10 + (1 # 2)) in
      (if Qle_bool 0 q then "" else "-")
        ++ Z_toString (n / 10) ++ "." ++ Z_toString (n mod 10)
  end.

Definition lower_ascii (c : ascii) : ascii :=
  let n := nat_of_ascii c in
  if ((65 <=? n) && (n <=? 90))%nat then ascii_of_nat (n + 32) else c.

(** [s.toLowerCase()]: on the letters A to Z; the other bytes are kept. *)
Fixpoint toLowerCase (s : string) : string :=
  match s with
  | EmptyString => EmptyString
  | String c s' => String (lower_ascii c) (toLowerCase s')
  end.

(** [s.startsWith(p)] *)
Definition startsWith (s p : string) : bool := String.prefix p s.

(** [l.includes(x)] on an array of strings. *)
Definition includes (l : list string) (x : string) : bool :=
  existsb (String.eqb x) l.

(** Truthiness of a string: the empty string is falsy. *)
Definition truthy (s : string) : bool :=
  match s with
  | EmptyString => false
  | String _ _ => true
  end.

(** Truthiness of [string | undefined]. *)
Definition truthy_opt (o : option string) : bool :=
  match o with
  | Some s => truthy s
  | None => false
  end.

(** [s.replace(pat, by)] with a string pattern: the first occurrence. *)
Fixpoint replace (pat by_ s : string) : string :=
  if String.prefix pat s
  then by_ ++ String.substring (String.length pat)
                (String.length s - String.length pat) s
  else match s with
       | EmptyString => EmptyString
       | String c s' => String c (replace pat by_ s')
       end.


End JSString.

Export JSString.

(** ** mathjs *)

Module Mathjs.

(** Modelled from the spec: [round] is imported from mathjs, which is not
    among the sources; the spec has "rounded minute counts" and "integer
    rounding".  The nearest integer, a half going away from zero as in that
    library; NaN stays NaN.  The result is an integer or NaN. *)
Definition round (x : number) : option Z :=
  match x with
  | NaN => None
  | Num q =>
      if Qle_bool 0 q
      then Some (Qfloor (q + (1 # 2)))
      else Some (- Qfloor (- q + (1 # 2)))%Z
  end.

End Mathjs.

Export Mathjs.

(** ** Time utilities (index.ts, lines 19-27)

    Over the rationals; the doubles of the code give the same lead time
    for time values whose difference is below 2^52 milliseconds, and the
    same string but for the last digit of the hours and of the days when
    the quotient lies, within its last bit, halfway between two tenths. *)

Definition getLeadTimeMinutes (from to : number) : number :=
  of_int (round (divp (divp (sub to from) 1000) 60)).

Definition minToTimeString (min : number) : string :=
  if gt min (of_Z 60)
  then if gt (divp min 60) (of_Z 24)
       then (toFixed1 (divp (divp min 60) 24) ++ "日")%string
       else (toFixed1 (divp min 60) ++ "時間")%string
  else (int_toString (round min) ++ "分")%string.

(** ** Arrays *)

Module JSArray.

Section Sort.
Variable A : Type.
(** The comparison function; a NaN result counts as 0. *)
Variable cmp : A -> A -> number.

Fixpoint insert (x : A) (l : list A) : list A :=
  match l with
  | [] => [x]
  | y :: l' => if gt (cmp x y) (of_Z 0) then y :: insert x l' else x :: l
  end.

(** [l.sort(cmp)]: the stable sort that the language prescribes when
    [cmp] orders the elements consistently, written as an insertion
    sort.  With an invalid date among three elements or more [cmp] is not
    consistent and the order of the engine can differ from this one. *)
Definition sort (l : list A) : list A := fold_right insert [] l.
End Sort.

Arguments insert {A} cmp x l.
Arguments sort {A} cmp l.

(** [x ?? d] *)
Definition nullish {A : Type} (x : option A) (d : A) : A :=
  match x with
  | Some a => a
  | None => d
  end.

(** [a !== b] on [string | undefined]. *)
Definition strict_neq (a b : option string) : bool :=
  match a, b with
  | Some x, Some y => negb (String.eqb x y)
  | None, None => false
  | _, _ => true
  end.

End JSArray.

Export JSArray.

(** ** The answers of the REST API *)

Record Comment : Type := {
  comment_user : option string;          (* comment.user?.login *)
  comment_created_at : option string
}.

Record Review : Type := {
  review_user : option string;           (* review.user?.login *)
  review_state : string;
  review_submitted_at : option string
}.

Record Event : Type := {
  event_event : string;
  event_created_at : string
}.

Record Pull : Type := {
  pull_number : Z;
  pull_title : string;
  pull_user : option string;             (* pull.user?.login *)
  pull_labels : list (option string);    (* the name of each label *)
  pull_created_at : string
}.

(** A pull request of the search with the three lists fetched for it. *)
Record PullData : Type := {
  pull : Pull;
  comments : list Comment;
  reviews : list Review;
  events : list Event
}.

(** A [Date] object is its time value: milliseconds, or NaN when invalid. *)
Definition Date : Type := number.

Record Result : Type := {
  title : string;
  labels : list string;
  createdDate : string;
  reviewRequestedDate : string;
  firstCommentedAt : option Date;
  firstCommentLeadTime : number;
  approvedDateTime : string;
  approvedLeadTime : number
}.

(** An argument of [console.log]. *)
Inductive value : Type :=
| VStr (s : string)
| VUndefined.

(** The console: the calls of [console.log], each with its arguments. *)
Definition console : Type := list (list value).

Definition value_of (o : option string) : value :=
  match o with
  | Some s => VStr s
  | None => VUndefined
  end.

Record Config : Type := {
  OWNER : string;
  REPO : string;
  RANGE_OF_DATE : string
}.

(** ** mathjs: quantiles *)

Module MathjsStatistics.

(** The element of index [k], an integer-valued rational; NaN stands for
    the undefined element beyond the end. *)
Definition at_index (l : list number) (k : Z) : number :=
  nth (Z.to_nat k) l NaN.

(** Modelled from the spec: [quantileSeq] is imported from mathjs, which is
    not among the sources; the spec has "the value below which the given
    percentage of a sorted numeric sequence falls, computed via linear
    interpolation between order statistics".  For a probability [prob]
    between 0 and 1 and [n] values the index is [prob * (n - 1)]: an
    integer index selects that order statistic, another one weighs its two
    neighbours by the fractional part.  As in that library an empty
    sequence is an error ([None]) and a NaN among the values gives NaN. *)
Definition quantileSeq (data : list number) (prob : Q) : option number :=
  match data with
  | [] => None
  | _ :: _ =>
      if existsb isNaN data then Some NaN
      else
        let flat := sort sub data in
        let index := prob * inject_Z (Z.of_nat (List.length data) - 1) in
        let integerPart := Qfloor index in
        let fracPart := index - inject_Z integerPart in
        if Qeq_bool fracPart 0
        then Some (at_index flat integerPart)
        else
          let left := at_index flat integerPart in
          let right := at_index flat (integerPart + 1) in
          Some (add (mul left (Num (1 - fracPart))) (mul right (Num fracPart)))
  end.

End MathjsStatistics.

Export MathjsStatistics.

(** ** The pipeline (index.ts, [main]) *)

Section Pipeline.

(** [Date.parse]: the milliseconds of a timestamp, [None] when the string
    is not a date. *)
Variable Date_parse : string -> option Z.

(** [dayjs(t).locale(ja).format(pattern)] *)
Variable dayjs_format : string -> string -> string.

(** [new Date(s)] for a string; the empty string is not a date. *)
Definition new_Date (s : string) : Date :=
  if truthy s then of_int (Date_parse s) else NaN.

(** [new Date(d)] for [d : Date | undefined]. *)
Definition new_Date_of (d : option Date) : Date :=
  match d with
  | Some t => t
  | None => NaN
  end.

Definition is_review_requested (e : Event) : bool :=
  String.eqb (event_event e) "review_requested".

Definition is_approved (r : Review) : bool :=
  String.eqb (review_state r) "APPROVED".

(** Lines 69-71. *)
Definition reviewRequestedAt (p : PullData) : option string :=
  option_map event_created_at (find is_review_requested (events p)).

(** The dates of the responses that are not the author's, comments first. *)
Definition responses (p : PullData) : list Date :=
  let user := pull_user (pull p) in
  (map (fun comment => new_Date (nullish (comment_created_at comment) ""))
       (filter (fun comment => strict_neq (comment_user comment) user)
               (comments p))
   ++
   map (fun review => new_Date (nullish (review_submitted_at review) ""))
       (filter (fun review => strict_neq (review_user review) user)
               (reviews p)))%list.

(** Lines 72-79: the first element of the sorted responses, [None] for
    [undefined]. *)
Definition firstCommentedAt_of (p : PullData) : option Date :=
  hd_error (sort (fun a b => sub a b) (responses p)).

(** Lines 81-86. *)
Definition reviewStartedAt (p : PullData) : string :=
  match reviewRequestedAt p with
  | Some requested =>
      if truthy requested
         && lt (new_Date requested) (new_Date_of (firstCommentedAt_of p))
      then requested
      else pull_created_at (pull p)
  | None => pull_created_at (pull p)
  end.

(** Lines 87-88. *)
Definition approvedAt (p : PullData) : option string :=
  match find is_approved (reviews p) with
  | Some review => review_submitted_at review
  | None => None
  end.

(** Lines 98-101. *)
Definition firstCommentLeadTime_of (p : PullData) : number :=
  getLeadTimeMinutes (new_Date (reviewStartedAt p))
                     (new_Date_of (firstCommentedAt_of p)).

(** Lines 102-107. *)
Definition approvedLeadTime_of (p : PullData) : number :=
  match approvedAt p with
  | Some approved =>
      if truthy approved
      then getLeadTimeMinutes (new_Date (reviewStartedAt p))
                              (new_Date approved)
      else NaN
  | None => NaN
  end.

Definition format_if_truthy (pattern : string) (t : option string) : string :=
  match t with
  | Some s => if truthy s then dayjs_format pattern s else ""%string
  | None => ""%string
  end.

(** The record of lines 114-126. *)
Definition record_of (p : PullData) : Result :=
  {| title := pull_title (pull p);
     labels :=
       flat_map (fun label =>
                   match label with
                   | Some l => if truthy l then [l] else []
                   | None => []
                   end)
                (pull_labels (pull p));
     createdDate := dayjs_format "YY/MM/DD(dd)" (pull_created_at (pull p));
     reviewRequestedDate :=
       format_if_truthy "YY/MM/DD(dd) HH:mm" (reviewRequestedAt p);
     firstCommentedAt := firstCommentedAt_of p;
     firstCommentLeadTime := firstCommentLeadTime_of p;
     approvedDateTime := format_if_truthy "YY/MM/DD(dd) HH:mm" (approvedAt p);
     approvedLeadTime := approvedLeadTime_of p |}.

(** The line of a pull request whose first response was slow. *)
Definition flagged_line (p : PullData) : list value :=
  [ VStr (pull_title (pull p));
    value_of (pull_user (pull p));
    VStr (minToTimeString (approvedLeadTime_of p)) ].

(** Lines 110-112: what one pull request adds to the console. *)
Definition flag (p : PullData) : console :=
  if gt (firstCommentLeadTime_of p) (of_Z (60 * 24 * 2))
  then [flagged_line p]
  else [].

(** One turn of the loop of lines 45-127 on the console and [results]. *)
Definition enrich (st : console * list Result) (p : PullData)
  : console * list Result :=
  ((fst st ++ flag p)%list, (snd st ++ [record_of p])%list).

Definition enrich_all (pulls : list PullData) : console * list Result :=
  fold_left enrich pulls ([], []).

End Pipeline.

(** ** Filter and report (index.ts, lines 129-171) *)

Definition nl : string := String "010"%char EmptyString.

(** The callback of [results.filter], lines 129-136. *)
Definition keep (result : Result) : bool :=
  if startsWith (toLowerCase (title result)) "release" then false
  else if includes (labels result) "案件" then false
  else truthy (approvedDateTime result).

(** How [main] ends: it returns, or an exception leaves it. *)
Inductive completion : Type :=
| Returned
| Threw.

(** Lines 142-146. *)
Definition header (cfg : Config) (results : list Result) : list value :=
  [ VStr (nl ++ REPO cfg ++ ": " ++ replace ".." "~" (RANGE_OF_DATE cfg)
             ++ " (" ++ Z_toString (Z.of_nat (List.length results)) ++ "件)") ].

(** Lines 147-157 and 158-168: the percentiles of one metric, nothing for an
    empty sequence; [None] when [quantileSeq] throws. *)
Definition percentiles (heading : string) (leadTimes : list number)
  : option console :=
  match leadTimes with
  | [] => Some []
  | _ :: _ =>
      match quantileSeq leadTimes (1 # 2) with
      | None => None
      | Some p50 =>
          match quantileSeq leadTimes (9 # 10) with
          | None => None
          | Some p90 =>
              Some [[ VStr (heading ++ nl);
                      VStr ("  50パーセンタイル: " ++ minToTimeString p50 ++ nl);
                      VStr ("  90パーセンタイル: " ++ minToTimeString p90) ]]
          end
      end
  end.

(** Line 170. *)
Definition no_results : list value := [ VStr "結果が取得できませんでした" ].

(** Lines 138-171, on the filtered records. *)
Definition report (cfg : Config) (results : list Result)
  : console * completion :=
  let firstCommentLeadTimes := map firstCommentLeadTime results in
  let approvedLeadTimes := map approvedLeadTime results in
  let out := [header cfg results] in
  match percentiles "最初のコメントまでの時間" firstCommentLeadTimes with
  | None => (out, Threw)
  | Some first =>
      match percentiles "Approve までの時間" approvedLeadTimes with
      | None => ((out ++ first)%list, Threw)
      | Some approve =>
          ((out ++ first ++ approve
                ++ match firstCommentLeadTimes, approvedLeadTimes with
                   | [], [] => [no_results]
                   | _, _ => []
                   end)%list,
           Returned)
      end
  end.

Section Main.

Variable Date_parse : string -> option Z.
Variable dayjs_format : string -> string -> string.

(** [main] once the search has returned [pulls]: the console at the end
    and the way it ends. *)
Definition main (cfg : Config) (pulls : list PullData)
  : console * completion :=
  let '(flagged, results) := enrich_all Date_parse dayjs_format pulls in
  let '(summary, how) := report cfg (filter keep results) in
  ((flagged ++ summary)%list, how).

End Main.

(** ** An instance of [Date.parse]: the timestamps of the REST API,
    [YYYY-MM-DDTHH:MM:SSZ] *)

Module ISO8601.

Definition digit (c : ascii) : option Z :=
  let n := nat_of_ascii c in
  if ((48 <=? n) && (n <=? 57))%nat then Some (Z.of_nat n - 48)%Z else None.

Fixpoint digits (acc : Z) (l : list ascii) : option Z :=
  match l with
  | [] => Some acc
  | c :: l' =>
      match digit c with
      | Some d => digits (acc * 10 + d)%Z l'
      | None => None
      end
  end.

(** Days from 1970-01-01 to a date of the proleptic Gregorian calendar. *)
Definition days_from_civil (y m d : Z) : Z :=
  let y' := (if m <=? 2 then y - 1 else y)%Z in
  let era := (y' / 400)%Z in
  let yoe := (y' - era * 400)%Z in
  let mp := (if m <=? 2 then m + 9 else m - 3)%Z in
  let doy := ((153 * mp + 2) / 5 + d - 1)%Z in
  let doe := (yoe * 365 + yoe / 4 - yoe / 100 + doy)%Z in
  (era * 146097 + doe - 719468)%Z.

Definition in_range (lo x hi : Z) : bool := ((lo <=? x) && (x <=? hi))%Z.

Definition parse (s : string) : option Z :=
  match list_ascii_of_string s with
  | [y1; y2; y3; y4; "-"; m1; m2; "-"; d1; d2; "T";
     h1; h2; ":"; n1; n2; ":"; s1; s2; "Z"]%char =>
      match digits 0 [y1; y2; y3; y4], digits 0 [m1; m2], digits 0 [d1; d2],
            digits 0 [h1; h2], digits 0 [n1; n2], digits 0 [s1; s2] with
      | Some y, Some m, Some d, Some h, Some n, Some sec =>
          if in_range 1 m 12 && in_range 1 d 31 && in_range 0 h 23
             && in_range 0 n 59 && in_range 0 sec 59
          then Some ((((days_from_civil y m d * 24 + h) * 60 + n) * 60 + sec)
                     * 1000)%Z
          else None
      | _, _, _, _, _, _ => None
      end
  | _ => None
  end.

(** A stand-in for the formatter of dayjs: the timestamp itself. *)
Definition format (pattern t : string) : string := t.

End ISO8601.

(** ** Vocabulary of the specification *)

Module Spec.

Open Scope string_scope.











(** [s] starts with [p], letter case apart. *)
Definition starts_ignoring_case (p s : string) : Prop :=
  exists (p' rest : string),
    s = p' ++ rest /\ toLowerCase p' = toLowerCase p.

(** What the filter step drops, in the words of the specification. *)
Definition dropped (r : Result) : Prop :=
  starts_ignoring_case "release" (title r)
  \/ In "案件" (labels r)
  \/ approvedDateTime r = "".

End Spec.

Export Spec.

Section PipelineVocabulary.

Variable Date_parse : string -> option Z.

(** [t] is the date of a response to [p] that is not its author's: of a
    review comment or of a review. *)
Definition is_response (p : PullData) (t : Date) : Prop :=
  (exists c, In c (comments p)
             /\ comment_user c <> pull_user (pull p)
             /\ t = new_Date Date_parse (nullish (comment_created_at c) ""))
  \/ (exists r, In r (reviews p)
                /\ review_user r <> pull_user (pull p)
                /\ t = new_Date Date_parse
                                (nullish (review_submitted_at r) "")).

(** [t] is the minimum of the dates of these responses. *)
Definition earliest_response (p : PullData) (t : Date) : Prop :=
  is_response p t /\ t <> NaN
  /\ forall u, is_response p u -> u <> NaN -> le t u = true.

(** A review was requested, and strictly before the first response. *)
Definition requested_before_response (p : PullData) : Prop :=
  exists e, find is_review_requested (events p) = Some e
            /\ lt (new_Date Date_parse (event_created_at e))
                  (new_Date_of (firstCommentedAt_of Date_parse p)) = true.

(** The first review in the returned order whose state is APPROVED. *)
Definition first_approved (p : PullData) : option Review :=
  find is_approved (reviews p).

End PipelineVocabulary.

(** ** Pull requests and settings for the examples *)

Module Fixtures.

Open Scope string_scope.

Definition day1 : string := "2024-01-01T09:00:00Z".
Definition day3 : string := "2024-01-03T09:00:00Z".
Definition day4 : string := "2024-01-04T09:30:00Z".
Definition day5 : string := "2024-01-05T09:00:00Z".

Definition pull_of (t : string) (created : string) : Pull :=
  {| pull_number := 1; pull_title := t; pull_user := Some "alice";
     pull_labels := [Some "feature"]; pull_created_at := created |}.

Definition requested (t : string) : Event :=
  {| event_event := "review_requested"; event_created_at := t |}.

Definition approval (who : string) (t : option string) : Review :=
  {| review_user := Some who; review_state := "APPROVED";
     review_submitted_at := t |}.

Definition comment_by (who : string) (t : string) : Comment :=
  {| comment_user := Some who; comment_created_at := Some t |}.

(** Requested on day 1, first comment of a reviewer on day 4, approved on
    day 5. *)
Definition slow : PullData :=
  {| pull := pull_of "Add export" day1;
     comments := [comment_by "alice" day3; comment_by "bob" day4];
     reviews := [approval "bob" (Some day5)];
     events := [requested day1] |}.

(** Requested on day 5, after the approval of day 3. *)
Definition requested_late : PullData :=
  {| pull := pull_of "Fix typo" day1;
     comments := [];
     reviews := [approval "bob" (Some day3)];
     events := [requested day5] |}.

(** Created, requested and approved (by a bot) within the same second. *)
Definition same_second : PullData :=
  {| pull := pull_of "Bump version" day1;
     comments := [];
     reviews := [approval "bot" (Some day1)];
     events := [requested day1] |}.

(** An approving review that carries no [submitted_at]. *)
Definition approval_without_date : PullData :=
  {| pull := pull_of "Rename module" day1;
     comments := [];
     reviews := [approval "bob" None];
     events := [] |}.

(** A pending review, which carries no [submitted_at], listed before an
    approval of day 3. *)
Definition pending_first : PullData :=
  {| pull := pull_of "Update readme" day1;
     comments := [];
     reviews := [ {| review_user := Some "bob"; review_state := "PENDING";
                     review_submitted_at := None |};
                  approval "carol" (Some day3) ];
     events := [requested day1] |}.

(** Only the author commented. *)
Definition author_only : PullData :=
  {| pull := pull_of "Draft" day1;
     comments := [comment_by "alice" day5];
     reviews := [];
     events := [requested day1] |}.

Definition release : PullData :=
  {| pull := pull_of "Release 1.2" day1;
     comments := [];
     reviews := [approval "bob" (Some day5)];
     events := [] |}.

Definition cfg : Config :=
  {| OWNER := "kinashi"; REPO := "measure-review-time";
     RANGE_OF_DATE := "2024-01-01..2024-01-31" |}.

End Fixtures.

(** ** The same arithmetic on binary64 numbers

    A check of the rational model against the doubles of JavaScript on the
    values of the examples. *)

Module Binary64.

(** [(to - from) / 1000 / 60], before the rounding. *)
Definition minutes (from to : PrimFloat.float) : PrimFloat.float :=
  PrimFloat.div (PrimFloat.div (PrimFloat.sub to from) 1000%float) 60%float.

(** The interpolation of [quantileSeq] between [left] and [right], the order
    statistics of index [integerPart] and [integerPart + 1] among [n]
    values. *)
Definition interpolate (prob n integerPart left right : PrimFloat.float)
  : PrimFloat.float :=
  let index := PrimFloat.mul prob (PrimFloat.sub n 1%float) in
  let fracPart := PrimFloat.sub index integerPart in
  PrimFloat.add (PrimFloat.mul left (PrimFloat.sub 1%float fracPart))
                (PrimFloat.mul right fracPart).

(** The rational that a finite double is; [None] for NaN and the
    infinities. *)
Definition exact (x : PrimFloat.float) : option Q :=
  match Prim2SF x with
  | S754_zero _ => Some 0%Q
  | S754_finite s m e =>
      let v := if (0 <=? e)%Z
               then inject_Z (Zpos m * 2 ^ e)
               else Zpos m # Pos.pow 2 (Z.to_pos (- e)) in
      Some (if s then Qopp v else v)
  | _ => None
  end.

(** The double of a time value: an integer below 2^53 in absolute value. *)
Definition of_time (z : Z) : PrimFloat.float :=
  match z with
  | Z0 => 0%float
  | Zpos _ => PrimFloat.of_uint63 (Uint63Axioms.of_Z z)
  | Zneg p => PrimFloat.opp (PrimFloat.of_uint63 (Uint63Axioms.of_Z (Zpos p)))
  end.

(** [round] on a finite double: an integer; [None] otherwise. *)
Definition round (x : PrimFloat.float) : option Z :=
  match exact x with
  | Some q => Mathjs.round (Num q)
  | None => None
  end.

(** Lines 19-20 on doubles. *)
Definition getLeadTimeMinutes (from to : Z) : option Z :=
  round (minutes (of_time from) (of_time to)).

(** [x.toFixed(1)] on a double, below 10^21. *)
Definition toFixed1 (x : PrimFloat.float) : option string :=
  match exact x with
  | Some q =>
      if Qle_bool (inject_Z (10 ^ 21)) (Qabs q) then None
      else Some (JSString.toFixed1 (Num q))
  | None => None
  end.

(** Lines 22-27 on doubles, for NaN and the numbers below 10^21. *)
Definition minToTimeString (min : PrimFloat.float) : option string :=
  if PrimFloat.ltb 60%float min
  then if PrimFloat.ltb 24%float (PrimFloat.div min 60%float)
       then option_map (fun s => (s ++ "日")%string)
              (toFixed1 (PrimFloat.div (PrimFloat.div min 60%float) 24%float))
       else option_map (fun s => (s ++ "時間")%string)
              (toFixed1 (PrimFloat.div min 60%float))
  else match exact min with
       | Some q =>
           if Qle_bool (inject_Z (10 ^ 21)) (Qabs q) then None
           else Some (int_toString (Mathjs.round (Num q)) ++ "分")%string
       | None => if PrimFloat.is_nan min then Some "NaN分"%string else None
       end.

End Binary64.

(** ** The search and the fetches (index.ts, lines 30-64) *)

(** Line 35: the query of the search. *)
Definition search_query (cfg : Config) : string :=
  ("repo:" ++ OWNER cfg ++ "/" ++ REPO cfg ++ " created:" ++ RANGE_OF_DATE cfg
     ++ " is:pr is:merged review:approved")%string.

(** Lines 31-42: [pulls] after the pages of the search, each with its
    [data], [None] when a page has none. *)
Definition collect (pages : list (option (list Pull))) : list Pull :=
  fold_left (fun pulls data => (pulls ++ nullish data [])%list) pages [].

(** The three lists of the REST API, by the number of the pull request. *)
Record Api : Type := {
  listReviewComments : Z -> list Comment;
  listReviews : Z -> list Review;
  listEvents : Z -> list Event
}.

(** Lines 47-64. *)
Definition fetch (api : Api) (p : Pull) : PullData :=
  {| pull := p;
     comments := listReviewComments api (pull_number p);
     reviews := listReviews api (pull_number p);
     events := listEvents api (pull_number p) |}.

Section Run.

Variable Date_parse : string -> option Z.
Variable dayjs_format : string -> string -> string.

(** [main] from the pages of the search and the answers of the API. *)
Definition run (cfg : Config) (api : Api) (pages : list (option (list Pull)))
  : console * completion :=
  main Date_parse dayjs_format cfg (map (fetch api) (collect pages)).

End Run.

(** ** More vocabulary *)

(** The integer nearest to [d / c], a half going away from zero. *)
Definition round_div (d c : Z) : Z :=
  if (0 <=? d)%Z then ((2 * d + c) / (2 * c))%Z
  else (- ((2 * (- d) + c) / (2 * c)))%Z.

(** No byte of [s] is a point. *)
Fixpoint no_point (s : string) : bool :=
  match s with
  | EmptyString => true
  | String c s' => negb (Ascii.eqb c ".") && no_point s'
  end.

(** The block of one metric in the report. *)
Definition percentile_block (heading : string) (p50 p90 : number)
  : list value :=
  [ VStr (heading ++ nl);
    VStr ("  50パーセンタイル: " ++ minToTimeString p50 ++ nl);
    VStr ("  90パーセンタイル: " ++ minToTimeString p90) ]%string.

Module MoreFixtures.

Import Fixtures.

Open Scope string_scope.

(** Labeled, requested on day 1 and requested again on day 4; first
    response on day 3. *)
Definition rerequested : PullData :=
  {| pull := pull_of "Split parser" day1;
     comments := [comment_by "bob" day3];
     reviews := [approval "bob" (Some day5)];
     events := [ {| event_event := "labeled"; event_created_at := day1 |};
                 requested day1; requested day4 ] |}.

(** A pull request that carries the excluded label. *)
Definition labelled : PullData :=
  {| pull := {| pull_number := 7; pull_title := "Customer work";
                pull_user := Some "alice";
                pull_labels := [None; Some ""; Some "案件"; Some "bug"];
                pull_created_at := day1 |};
     comments := [];
     reviews := [approval "bob" (Some day3)];
     events := [] |}.

End MoreFixtures.

(** * Properties *)

(** ** Numbers *)

Section NumberFacts.

Local Open Scope Q_scope.

Lemma gt_Num (x y : Q) : gt (Num x) (Num y) = true <-> y < x.
Proof.
  unfold gt. rewrite negb_true_iff. split; intros H.
  - apply Qnot_le_lt. intros Hle. apply Qle_bool_iff in Hle. congruence.
  - destruct (Qle_bool x y) eqn:E; [|reflexivity].
    apply Qle_bool_iff in E. exfalso. exact (Qlt_not_le _ _ H E).
Qed.

Lemma gt_Num_false (x y : Q) : gt (Num x) (Num y) = false <-> x <= y.
Proof.
  unfold gt. rewrite negb_false_iff. apply Qle_bool_iff.
Qed.

Lemma gt_NaN_l (b : number) : gt NaN b = false.
Proof. reflexivity. Qed.

Lemma gt_NaN_r (a : number) : gt a NaN = false.
Proof. destruct a; reflexivity. Qed.

(** [round] does not see which fraction stands for a rational. *)
Lemma round_comp (x y : Q) : x == y -> round (Num x) = round (Num y).
Proof.
  intros E. unfold round.
  rewrite (Qleb_comp 0 0 (Qeq_refl 0) x y E).
  destruct (Qle_bool 0 y).
  - f_equal. apply Qfloor_comp. rewrite E. reflexivity.
  - do 2 f_equal. apply Qfloor_comp. rewrite E. reflexivity.
Qed.

Lemma round_Qred (x : Q) : round (Num (Qred x)) = round (Num x).
Proof. apply round_comp, Qred_correct. Qed.

(** The rounding of a non-negative quotient of integers, in integers. *)
Lemma round_quotient (d : Z) (c : positive) :
  (0 <= d)%Z ->
  round (Num (inject_Z d / inject_Z (Zpos c)))
  = Some ((2 * d + Zpos c) / (2 * Zpos c))%Z.
Proof.
  intros Hd. unfold round.
  assert (Hnn : 0 <= inject_Z d / inject_Z (Zpos c)).
  { apply Qle_shift_div_l; [reflexivity|].
    rewrite Qmult_0_l. change 0 with (inject_Z 0). now rewrite <- Zle_Qle. }
  apply Qle_bool_iff in Hnn. rewrite Hnn. f_equal.
  rewrite Zdiv_Qdiv. apply Qfloor_comp.
  rewrite !inject_Z_plus, !inject_Z_mult.
  assert (Hc : ~ inject_Z (Zpos c) == 0) by (unfold Qeq; simpl; lia).
  change (inject_Z 2) with 2. field. exact Hc.
Qed.

End NumberFacts.

(** ** Lead time in minutes *)

Lemma lead_time_value (from to : Z) :
  divp (divp (sub (of_Z to) (of_Z from)) 1000) 60
  = divp (sub (of_Z to) (of_Z from)) 60000.
Proof.
  unfold divp, sub, of_Z. f_equal. apply Qred_complete.
  rewrite !Qred_correct. field.
Qed.

(** C7: for the time values of two dates, [from <= to], less than 2^52
    milliseconds apart (the range in which the doubles of the code carry
    the quotient without a change of the rounded result), the lead time is
    [round ((to - from) / 60000)], namely the integer quotient of
    [to - from + 30000] by 60000, and it is not negative. *)
Theorem getLeadTimeMinutes_rounds (from to : Z) :
  (- 8640000000000000 <= from)%Z -> (to <= 8640000000000000)%Z ->
  (from <= to)%Z -> (to - from < 2 ^ 52)%Z ->
  getLeadTimeMinutes (of_Z from) (of_Z to)
  = of_int (round (divp (sub (of_Z to) (of_Z from)) 60000))
  /\ getLeadTimeMinutes (of_Z from) (of_Z to)
     = of_Z ((to - from + 30000) / 60000)
  /\ (0 <= (to - from + 30000) / 60000)%Z
  /\ le (of_Z 0) (getLeadTimeMinutes (of_Z from) (of_Z to)) = true.
Proof.
  intros _ _ Hle _. unfold getLeadTimeMinutes.
  rewrite lead_time_value.
  assert (Hv : round (divp (sub (of_Z to) (of_Z from)) 60000)
               = Some ((to - from + 30000) / 60000)%Z).
  { unfold divp, sub, of_Z. rewrite round_Qred.
    rewrite (round_comp (Qred (inject_Z to - inject_Z from) / inject_Z 60000)
                        (inject_Z (to - from) / inject_Z 60000)).
    - rewrite round_quotient by lia.
      f_equal.
      replace (2 * (to - from) + 60000)%Z with ((to - from + 30000) * 2)%Z by lia.
      change (2 * 60000)%Z with (60000 * 2)%Z.
      rewrite Z.div_mul_cancel_r by lia. reflexivity.
    - rewrite Qred_correct. unfold Zminus.
      rewrite inject_Z_plus, inject_Z_opp. reflexivity. }
  assert (Hnn : (0 <= (to - from + 30000) / 60000)%Z)
    by (apply Z.div_pos; lia).
  rewrite Hv. repeat split; try assumption.
  simpl. unfold of_Z, le. apply Qle_bool_iff.
  change 0%Q with (inject_Z 0). now rewrite <- Zle_Qle.
Qed.

Lemma getLeadTimeMinutes_rounds_witness :
  (1704067200000 <= 1704067290000)%Z
  /\ getLeadTimeMinutes (of_Z 1704067200000) (of_Z 1704067290000) = of_Z 2.
Proof.
  split; [lia|].
  exact (proj1 (proj2 (getLeadTimeMinutes_rounds 1704067200000 1704067290000
                         ltac:(lia) ltac:(lia) ltac:(lia) ltac:(lia)))).
Defined.

(** ** Strings *)

Section StringFacts.

Local Open Scope string_scope.



Lemma prefix_app (p x : string) : String.prefix p (p ++ x) = true.
Proof.
  induction p as [|c p IH]; simpl; [destruct x; reflexivity|].
  destruct (ascii_dec c c); [exact IH | congruence].
Qed.














End StringFacts.

(** ** Formatting a duration *)


Section Formatting.

Local Open Scope string_scope.






Lemma minToTimeString_minutes (m : number) :
  gt m (of_Z 60) = false ->
  minToTimeString m = int_toString (round m) ++ "分".
Proof. intros H. unfold minToTimeString. now rewrite H. Qed.





End Formatting.




(** ** The filter step *)

Section Filter.

Local Open Scope string_scope.

Lemma prefix_toLowerCase (p s : string) :
  String.prefix (toLowerCase p) (toLowerCase s) = true
  <-> starts_ignoring_case p s.
Proof.
  revert s. induction p as [|a p IH]; intros s.
  - split; [|destruct s; reflexivity].
    intros _. exists "", s. split; reflexivity.
  - destruct s as [|b s]; simpl.
    + split; [discriminate|].
      intros [p' [rest [E L]]]. destruct p'; simpl in *; discriminate.
    + destruct (ascii_dec (lower_ascii a) (lower_ascii b)) as [Eab|Nab].
      * rewrite IH. split.
        -- intros [p' [rest [E L]]]. exists (String b p'), rest.
           simpl. rewrite E, L, Eab. split; reflexivity.
        -- intros [p' [rest [E L]]]. destruct p' as [|c p']; [discriminate|].
           simpl in E, L. injection E as -> ->. injection L as _ L.
           exists p', rest. split; [reflexivity | exact L].
      * split; [discriminate|].
        intros [p' [rest [E L]]]. destruct p' as [|c p']; [discriminate|].
        simpl in E, L. injection E as -> _. injection L as L _.
        congruence.
Qed.

Lemma startsWith_release (t : string) :
  startsWith (toLowerCase t) "release" = true
  <-> starts_ignoring_case "release" t.
Proof. exact (prefix_toLowerCase "release" t). Qed.

Lemma includes_In (l : list string) (x : string) :
  includes l x = true <-> In x l.
Proof.
  unfold includes. rewrite existsb_exists. split.
  - intros [y [Hy E]]. apply String.eqb_eq in E. now subst.
  - intros H. exists x. split; [exact H | apply String.eqb_refl].
Qed.

Lemma truthy_false (s : string) : truthy s = false <-> s = "".
Proof. destruct s; simpl; split; congruence. Qed.

Lemma keep_false (r : Result) : keep r = false <-> dropped r.
Proof.
  unfold keep, dropped.
  destruct (startsWith (toLowerCase (title r)) "release") eqn:Es.
  - apply startsWith_release in Es. tauto.
  - destruct (includes (labels r) "案件") eqn:Ei.
    + apply includes_In in Ei. tauto.
    + rewrite truthy_false. split; [tauto|].
      intros [H|[H|H]]; [| |exact H].
      * apply startsWith_release in H. congruence.
      * apply includes_In in H. congruence.
Qed.

End Filter.

(** C2: the filter step drops a record exactly when its title starts with
    "release" (letter case apart), or its labels include the excluded label,
    or its approval timestamp string is empty; it keeps every other record;
    a record titled "Release 1.2" is dropped whatever its other fields. *)
Theorem filter_keeps (results : list Result) (r : Result) :
  (keep r = false <-> dropped r)
  /\ (In r (filter keep results) <-> In r results /\ ~ dropped r)
  /\ (title r = "Release 1.2"%string -> ~ In r (filter keep results)).
Proof.
  split; [apply keep_false|]. split.
  - rewrite filter_In, <- keep_false.
    destruct (keep r); intuition congruence.
  - intros Et H. apply filter_In in H. destruct H as [_ H].
    unfold keep in H. rewrite Et in H. discriminate H.
Qed.

(** ** Sorting dates *)

Section SortFacts.

Lemma gt_sub_0 (a b : Q) :
  gt (sub (Num a) (Num b)) (of_Z 0) = true <-> (b < a)%Q.
Proof.
  unfold sub, of_Z. rewrite gt_Num, Qred_correct.
  change (inject_Z 0) with 0%Q. split; intros H; lra.
Qed.

Lemma le_Num (x y : Q) : le (Num x) (Num y) = true <-> (x <= y)%Q.
Proof. apply Qle_bool_iff. Qed.

Lemma insert_In (x y : number) (l : list number) :
  In y (insert sub x l) <-> y = x \/ In y l.
Proof.
  induction l as [|z l IH]; simpl; [intuition|].
  destruct (gt (sub x z) (of_Z 0)); simpl; rewrite ?IH; intuition.
Qed.

Lemma sort_In (y : number) (l : list number) :
  In y (sort sub l) <-> In y l.
Proof.
  induction l as [|x l IH]; simpl; [reflexivity|].
  unfold sort in IH. rewrite insert_In, IH. intuition.
Qed.

(** On valid dates the sorted array starts with an earliest one. *)
Lemma sort_head_earliest (l : list number) :
  (forall t, In t l -> t <> NaN) ->
  match hd_error (sort sub l) with
  | None => l = []
  | Some t => In t l /\ forall u, In u l -> le t u = true
  end.
Proof.
  induction l as [|x l IH]; intros Hv; [reflexivity|].
  assert (Hx : x <> NaN) by (apply Hv; now left).
  destruct x as [|a]; [congruence|].
  assert (Hl : forall t, In t l -> t <> NaN) by (intros t Ht; apply Hv; now right).
  specialize (IH Hl).
  change (sort sub (Num a :: l)) with (insert sub (Num a) (sort sub l)).
  destruct (sort sub l) as [|y s] eqn:Es; cbn [insert hd_error] in *.
  - subst l. split; [now left|].
    intros u [<-|Hu]; [apply le_Num; lra | contradiction Hu].
  - destruct IH as [Hy Hmin].
    assert (Hyv : y <> NaN) by now apply Hl.
    destruct y as [|b]; [congruence|].
    destruct (gt (sub (Num a) (Num b)) (of_Z 0)) eqn:E; cbn [hd_error].
    + apply gt_sub_0 in E. split; [now right|].
      intros u [<-|Hu]; [apply le_Num; lra | now apply Hmin].
    + assert (Hab : (a <= b)%Q).
      { destruct (Qlt_le_dec b a) as [H|H]; [|exact H].
        apply gt_sub_0 in H. congruence. }
      split; [now left|].
      intros u [<-|Hu]; [apply le_Num; lra|].
      specialize (Hmin u Hu). destruct u as [|c]; [discriminate|].
      apply le_Num in Hmin. apply le_Num. lra.
Qed.

End SortFacts.

(** ** Enrichment *)

Section Enrichment.

Variable Date_parse : string -> option Z.
Variable dayjs_format : string -> string -> string.

Lemma strict_neq_true (a b : option string) :
  strict_neq a b = true <-> a <> b.
Proof.
  destruct a as [x|], b as [y|]; simpl; try (split; congruence).
  rewrite negb_true_iff. split.
  - intros H E. injection E as ->. now rewrite String.eqb_refl in H.
  - intros H. apply String.eqb_neq. congruence.
Qed.

Lemma In_responses (p : PullData) (t : Date) :
  In t (responses Date_parse p) <-> is_response Date_parse p t.
Proof.
  unfold responses, is_response.
  rewrite in_app_iff, !in_map_iff. split.
  - intros [[c [<- H]]|[r [<- H]]];
      apply filter_In in H; destruct H as [Hin Hne];
      apply strict_neq_true in Hne; [left|right]; eauto.
  - intros [[c [Hin [Hne ->]]]|[r [Hin [Hne ->]]]]; [left|right];
      eexists; (split; [reflexivity|]);
      apply filter_In; split; auto; now apply strict_neq_true.
Qed.

Lemma getLeadTimeMinutes_NaN_r (from : number) :
  getLeadTimeMinutes from NaN = NaN.
Proof. destruct from; reflexivity. Qed.

Lemma getLeadTimeMinutes_NaN_l (to : number) :
  getLeadTimeMinutes NaN to = NaN.
Proof. destruct to; reflexivity. Qed.

Lemma getLeadTimeMinutes_NaN (from to : number) :
  getLeadTimeMinutes from to = NaN <-> from = NaN \/ to = NaN.
Proof.
  split.
  - destruct from as [|a], to as [|b]; auto.
    unfold getLeadTimeMinutes, sub, divp, round.
    destruct (Qle_bool _ _); discriminate.
  - intros [-> | ->];
      [apply getLeadTimeMinutes_NaN_l | apply getLeadTimeMinutes_NaN_r].
Qed.

(** The loop adds the flagged lines in order and one record for each pull
    request. *)
Lemma enrich_all_flat (pulls : list PullData) :
  enrich_all Date_parse dayjs_format pulls
  = (flat_map (flag Date_parse) pulls,
     map (record_of Date_parse dayjs_format) pulls).
Proof.
  unfold enrich_all.
  assert (G : forall ps out rs,
             fold_left (enrich Date_parse dayjs_format) ps (out, rs)
             = ((out ++ flat_map (flag Date_parse) ps)%list,
                (rs ++ map (record_of Date_parse dayjs_format) ps)%list)).
  { induction ps as [|p ps IH]; intros out rs; simpl.
    - now rewrite !app_nil_r.
    - unfold enrich at 2. simpl. rewrite IH.
      now rewrite <- !app_assoc. }
  apply G.
Qed.

Lemma new_Date_cases (s : string) :
  new_Date Date_parse s = NaN \/ exists z, new_Date Date_parse s = of_Z z.
Proof.
  unfold new_Date. destruct (truthy s); [|now left].
  destruct (Date_parse s) as [z|]; [right; now exists z | now left].
Qed.

Lemma is_response_cases (p : PullData) (t : Date) :
  is_response Date_parse p t -> t = NaN \/ exists z, t = of_Z z.
Proof. intros [[c [_ [_ ->]]]|[r [_ [_ ->]]]]; apply new_Date_cases. Qed.

Lemma le_antisym_of_Z (a b : Z) :
  le (of_Z a) (of_Z b) = true -> le (of_Z b) (of_Z a) = true -> a = b.
Proof.
  unfold of_Z. rewrite !le_Num, <- !Zle_Qle. lia.
Qed.

(** C5, as the code has it: when every response that is not the author's
    carries a valid date, the first-response date is the minimum of the
    dates of the review comments and of the reviews that are not the
    author's; with no such response it is undefined, an invalid date. *)
Theorem firstCommentedAt_earliest (p : PullData) :
  (forall t, is_response Date_parse p t -> t <> NaN) ->
  (forall t, earliest_response Date_parse p t ->
             firstCommentedAt_of Date_parse p = Some t)
  /\ ((exists t, is_response Date_parse p t) ->
      exists t, earliest_response Date_parse p t)
  /\ ((forall t, ~ is_response Date_parse p t) ->
      firstCommentedAt_of Date_parse p = None
      /\ new_Date_of (firstCommentedAt_of Date_parse p) = NaN).
Proof.
  intros Hv.
  assert (Hv' : forall t, In t (responses Date_parse p) -> t <> NaN)
    by (intros t Ht; apply Hv; now apply In_responses).
  pose proof (sort_head_earliest (responses Date_parse p) Hv') as H.
  unfold firstCommentedAt_of.
  change (sort (fun a b => sub a b)) with (sort sub).
  destruct (hd_error (sort sub (responses Date_parse p))) as [t0|] eqn:E.
  - destruct H as [Hin Hmin]. apply In_responses in Hin.
    assert (Hmin' : forall u, is_response Date_parse p u -> le t0 u = true)
      by (intros u Hu; apply Hmin; now apply In_responses).
    split; [|split].
    + intros t [Ht [Hn Hle]]. f_equal.
      pose proof (Hle t0 Hin (Hv t0 Hin)) as L1.
      pose proof (Hmin' t Ht) as L2.
      destruct (is_response_cases p t Ht) as [->|[a ->]]; [congruence|].
      destruct (is_response_cases p t0 Hin) as [->|[b ->]]; [discriminate L2|].
      now rewrite (le_antisym_of_Z _ _ L1 L2).
    + intros _. exists t0. repeat split; auto.
    + intros Hnone. now apply Hnone in Hin.
  - split; [|split].
    + intros t [Ht _]. apply In_responses in Ht. rewrite H in Ht. destruct Ht.
    + intros [t Ht]. apply In_responses in Ht. rewrite H in Ht. destruct Ht.
    + intros _. split; reflexivity.
Qed.

Lemma new_Date_empty : new_Date Date_parse "" = NaN.
Proof. reflexivity. Qed.

Lemma new_Date_falsy (s : string) :
  truthy s = false -> new_Date Date_parse s = NaN.
Proof. intros H. unfold new_Date. now rewrite H. Qed.

(** The test of lines 82-84 is the condition of the specification. *)
Lemma requested_before_response_test (p : PullData) :
  requested_before_response Date_parse p
  <-> exists s, reviewRequestedAt p = Some s
                /\ truthy s
                   && lt (new_Date Date_parse s)
                         (new_Date_of (firstCommentedAt_of Date_parse p))
                   = true.
Proof.
  unfold requested_before_response, reviewRequestedAt.
  destruct (find is_review_requested (events p)) as [e|]; simpl.
  - split.
    + intros [e' [E H]]. injection E as <-. eexists. split; [reflexivity|].
      destruct (truthy (event_created_at e)) eqn:Et; [exact H|].
      rewrite (new_Date_falsy _ Et) in H. unfold lt in H.
      now rewrite gt_NaN_r in H.
    + intros [s [E H]]. injection E as <-. apply andb_true_iff in H.
      exists e. tauto.
  - split; [intros [e [E _]] | intros [s [E _]]]; discriminate.
Qed.

(** C1, as the code has it: the review starts at the timestamp of the
    review request when a review was requested strictly before the first
    response that is not the author's, and at the creation of the pull
    request otherwise.  When the two timestamps differ, it is the timestamp
    of the request only in the first case. *)
Theorem reviewStartedAt_cases (p : PullData) :
  (requested_before_response Date_parse p ->
   reviewRequestedAt p = Some (reviewStartedAt Date_parse p))
  /\ (~ requested_before_response Date_parse p ->
      reviewStartedAt Date_parse p = pull_created_at (pull p))
  /\ (reviewRequestedAt p <> Some (pull_created_at (pull p)) ->
      (reviewRequestedAt p = Some (reviewStartedAt Date_parse p)
       <-> requested_before_response Date_parse p)).
Proof.
  rewrite requested_before_response_test. unfold reviewStartedAt.
  destruct (reviewRequestedAt p) as [s|].
  - destruct (truthy s
              && lt (new_Date Date_parse s)
                    (new_Date_of (firstCommentedAt_of Date_parse p))) eqn:T.
    + repeat split; eauto.
      intros H. exfalso. apply H. eauto.
    + assert (N : ~ exists s0, Some s = Some s0
                     /\ truthy s0
                        && lt (new_Date Date_parse s0)
                              (new_Date_of (firstCommentedAt_of Date_parse p))
                        = true).
      { intros [s0 [E H]]. injection E as <-. congruence. }
      repeat split; tauto.
  - assert (N : ~ exists s0, @None string = Some s0
                     /\ truthy s0
                        && lt (new_Date Date_parse s0)
                              (new_Date_of (firstCommentedAt_of Date_parse p))
                        = true).
    { intros [s0 [E _]]. discriminate E. }
    repeat split; try tauto; discriminate.
Qed.

Lemma first_approved_None (p : PullData) :
  first_approved p = None
  <-> forall r, In r (reviews p) -> review_state r <> "APPROVED"%string.
Proof.
  unfold first_approved. split.
  - intros H r Hin E.
    pose proof (find_none is_approved (reviews p) H r Hin) as N.
    unfold is_approved in N. rewrite E in N. discriminate N.
  - intros H. destruct (find is_approved (reviews p)) as [r|] eqn:E;
      [|reflexivity].
    apply find_some in E. destruct E as [Hin E].
    apply String.eqb_eq in E. now apply H in E.
Qed.

Lemma reviewStartedAt_dated (p : PullData) :
  new_Date Date_parse (pull_created_at (pull p)) <> NaN ->
  (forall e, In e (events p) ->
             new_Date Date_parse (event_created_at e) <> NaN) ->
  new_Date Date_parse (reviewStartedAt Date_parse p) <> NaN.
Proof.
  intros Hc He. unfold reviewStartedAt, reviewRequestedAt.
  destruct (find is_review_requested (events p)) as [e|] eqn:E; simpl;
    [|exact Hc].
  apply find_some in E. destruct E as [Hin _].
  destruct (truthy (event_created_at e)
            && lt (new_Date Date_parse (event_created_at e))
                  (new_Date_of (firstCommentedAt_of Date_parse p)));
    [now apply He | exact Hc].
Qed.

(** C4: for a pull request whose answers are dated (its creation, its
    events and its APPROVED reviews carry a valid timestamp), the approved
    lead time is NaN exactly when no review has the state APPROVED; when
    one has, it is the rounded minutes from the review start to the
    submission of the first APPROVED review in the returned order. *)
Theorem approvedLeadTime_cases (p : PullData) :
  new_Date Date_parse (pull_created_at (pull p)) <> NaN ->
  (forall e, In e (events p) ->
             new_Date Date_parse (event_created_at e) <> NaN) ->
  (forall r, In r (reviews p) -> review_state r = "APPROVED"%string ->
             new_Date Date_parse (nullish (review_submitted_at r) "") <> NaN) ->
  (approvedLeadTime_of Date_parse p = NaN
   <-> forall r, In r (reviews p) -> review_state r <> "APPROVED"%string)
  /\ (forall r, first_approved p = Some r ->
      In r (reviews p) /\ review_state r = "APPROVED"%string
      /\ exists s, review_submitted_at r = Some s
                   /\ approvedLeadTime_of Date_parse p
                      = getLeadTimeMinutes
                          (new_Date Date_parse (reviewStartedAt Date_parse p))
                          (new_Date Date_parse s)
                   /\ approvedLeadTime_of Date_parse p <> NaN).
Proof.
  intros Hc He Hr.
  pose proof (reviewStartedAt_dated p Hc He) as Hs.
  rewrite <- first_approved_None.
  unfold approvedLeadTime_of, approvedAt, first_approved.
  destruct (find is_approved (reviews p)) as [r|] eqn:E.
  - apply find_some in E. destruct E as [Hin Ha].
    apply String.eqb_eq in Ha. pose proof (Hr r Hin Ha) as Hd.
    destruct (review_submitted_at r) as [s|] eqn:Es;
      [|exfalso; apply Hd; reflexivity].
    simpl nullish in Hd.
    destruct (truthy s) eqn:Ts;
      [|exfalso; apply Hd; now apply new_Date_falsy].
    assert (N : getLeadTimeMinutes
                  (new_Date Date_parse (reviewStartedAt Date_parse p))
                  (new_Date Date_parse s) <> NaN).
    { intros H. apply getLeadTimeMinutes_NaN in H.
      destruct H as [H|H]; [exact (Hs H) | exact (Hd H)]. }
    split.
    + split; [intros H; now apply N in H | discriminate].
    + intros r' Er. injection Er as <-.
      split; [exact Hin|]. split; [exact Ha|]. exists s. auto.
  - split; [|discriminate]. split; auto.
Qed.

(** C3: during enrichment a pull request adds the line of its title, its
    author and its formatted approval lead time to the console exactly when
    its first-comment lead time is greater than 2880 minutes, and nothing
    otherwise. *)
Theorem flag_slow (pulls : list PullData) (p : PullData) :
  fst (enrich_all Date_parse dayjs_format pulls)
  = flat_map (flag Date_parse) pulls
  /\ (flag Date_parse p = [flagged_line Date_parse p]
      <-> gt (firstCommentLeadTime (record_of Date_parse dayjs_format p))
             (of_Z 2880) = true)
  /\ (flag Date_parse p = []
      <-> gt (firstCommentLeadTime (record_of Date_parse dayjs_format p))
             (of_Z 2880) = false)
  /\ flagged_line Date_parse p
     = [ VStr (pull_title (pull p));
         value_of (pull_user (pull p));
         VStr (minToTimeString
                 (approvedLeadTime (record_of Date_parse dayjs_format p))) ].
Proof.
  split; [now rewrite enrich_all_flat|].
  unfold flag. simpl firstCommentLeadTime.
  change (of_Z (60 * 24 * 2)) with (of_Z 2880).
  destruct (gt (firstCommentLeadTime_of Date_parse p) (of_Z 2880));
    repeat split; intros; try reflexivity; discriminate.
Qed.

Lemma filter_none (A : Type) (f : A -> bool) (l : list A) :
  (forall x, In x l -> f x = false) -> filter f l = [].
Proof.
  induction l as [|x l IH]; intros H; simpl; [reflexivity|].
  rewrite (H x (or_introl eq_refl)). apply IH. intros y Hy. apply H. now right.
Qed.

Lemma strict_neq_refl (a : option string) : strict_neq a a = false.
Proof. destruct a; simpl; [now rewrite String.eqb_refl | reflexivity]. Qed.

(** C10: a pull request whose review comments and reviews are all its
    author's has no first response, its first-comment lead time is NaN, the
    comparison of NaN with the 2880 minutes is false and no line is
    printed for it. *)
Theorem no_response_no_flag (p : PullData) :
  (forall c, In c (comments p) -> comment_user c = pull_user (pull p)) ->
  (forall r, In r (reviews p) -> review_user r = pull_user (pull p)) ->
  firstCommentedAt_of Date_parse p = None
  /\ firstCommentLeadTime_of Date_parse p = NaN
  /\ gt (firstCommentLeadTime_of Date_parse p) (of_Z 2880) = false
  /\ flag Date_parse p = [].
Proof.
  intros Hc Hr.
  assert (E : firstCommentedAt_of Date_parse p = None).
  { unfold firstCommentedAt_of, responses.
    rewrite (filter_none Comment _ (comments p)), (filter_none Review _ (reviews p)).
    - reflexivity.
    - intros r Hin. rewrite (Hr r Hin). apply strict_neq_refl.
    - intros c Hin. rewrite (Hc c Hin). apply strict_neq_refl. }
  assert (L : firstCommentLeadTime_of Date_parse p = NaN).
  { unfold firstCommentLeadTime_of. rewrite E. apply getLeadTimeMinutes_NaN_r. }
  unfold flag. rewrite L. repeat split; assumption.
Qed.

End Enrichment.

(** ** The report *)

Lemma report_nil (cfg : Config) :
  report cfg [] = ([header cfg []; no_results], Returned).
Proof. reflexivity. Qed.

(** C9, as the code has it: when no pull request survives the filter, the
    report is the header line, with a count of 0, followed by the "no
    results" message; no percentile line is printed and [main] returns. *)
Theorem empty_run (Date_parse : string -> option Z)
    (dayjs_format : string -> string -> string)
    (cfg : Config) (pulls : list PullData) :
  filter keep (snd (enrich_all Date_parse dayjs_format pulls)) = [] ->
  main Date_parse dayjs_format cfg pulls
  = ((fst (enrich_all Date_parse dayjs_format pulls)
        ++ [header cfg []; no_results])%list,
     Returned)
  /\ header cfg []
     = [ VStr (nl ++ REPO cfg ++ ": " ++ replace ".." "~" (RANGE_OF_DATE cfg)
                  ++ " (0件)")%string ].
Proof.
  intros H. split; [|reflexivity].
  unfold main. destruct (enrich_all Date_parse dayjs_format pulls) as [out rs].
  simpl in H. rewrite H, report_nil. reflexivity.
Qed.

Lemma empty_run_witness :
  main ISO8601.parse ISO8601.format Fixtures.cfg [Fixtures.release]
  = ([ [VStr "Release 1.2"; VStr "alice"; VStr "4.0日"];
       [VStr (nl ++ "measure-review-time: 2024-01-01~2024-01-31 (0件)")];
       [VStr "結果が取得できませんでした"] ]%string,
     Returned).
Proof.
  exact (proj1 (empty_run ISO8601.parse ISO8601.format Fixtures.cfg
                  [Fixtures.release] eq_refl)).
Defined.

(** The claim C9 as it is worded fails: with no pull request at all the
    console is not the "no results" message alone. *)
Lemma empty_run_not_message_alone :
  fst (main ISO8601.parse ISO8601.format Fixtures.cfg []) <> [no_results].
Proof. vm_compute. discriminate. Qed.

(** ** Percentiles *)

(** C8: for the sequence 10, 20, 30, 40 the 50th percentile is 25 and the
    90th percentile is 37, the values interpolated linearly between the
    order statistics 20 and 30, and 30 and 40; the report shows them as 25
    and 37 minutes. *)
Theorem quantileSeq_fixture :
  quantileSeq [of_Z 10; of_Z 20; of_Z 30; of_Z 40] (1 # 2) = Some (of_Z 25)
  /\ quantileSeq [of_Z 10; of_Z 20; of_Z 30; of_Z 40] (9 # 10)
     = Some (of_Z 37)
  /\ add (mul (of_Z 20) (Num (1 # 2))) (mul (of_Z 30) (Num (1 # 2))) = of_Z 25
  /\ add (mul (of_Z 30) (Num (3 # 10))) (mul (of_Z 40) (Num (7 # 10)))
     = of_Z 37
  /\ percentiles "Approve までの時間" [of_Z 10; of_Z 20; of_Z 30; of_Z 40]
     = Some [[ VStr ("Approve までの時間" ++ nl);
               VStr ("  50パーセンタイル: 25分" ++ nl);
               VStr "  90パーセンタイル: 37分" ]]%string.
Proof. repeat split; vm_compute; reflexivity. Qed.

(** In binary64 arithmetic too: 0.9, the double nearest to nine tenths. *)
Example quantileSeq_fixture_binary64 :
  Binary64.interpolate 0.5%float 4%float 1%float 20%float 30%float = 25%float
  /\ Binary64.interpolate 0x1.ccccccccccccdp-1%float 4%float 2%float
                          30%float 40%float
     = 37%float.
Proof. split; vm_compute; reflexivity. Qed.

Example quantileSeq_any_order :
  quantileSeq [of_Z 40; of_Z 10; of_Z 30; of_Z 20] (9 # 10) = Some (of_Z 37).
Proof. vm_compute. reflexivity. Qed.

Example quantileSeq_empty : quantileSeq [] (1 # 2) = None.
Proof. reflexivity. Qed.

(** ** The examples of the specification, on the timestamps of the API *)

(** The claim C1 as it is worded fails: created, requested and answered in
    the same second, the review starts at the creation, which is the
    timestamp of the request, though the request does not precede the first
    response. *)
Lemma reviewStartedAt_iff_fails :
  ~ (reviewRequestedAt Fixtures.same_second
     = Some (reviewStartedAt ISO8601.parse Fixtures.same_second)
     <-> requested_before_response ISO8601.parse Fixtures.same_second).
Proof.
  intros [H _]. specialize (H eq_refl).
  destruct H as [e [E H]]. vm_compute in E. injection E as <-.
  vm_compute in H. discriminate H.
Qed.

(** Request on day 1 and first response on day 4: the request. *)
Example reviewStartedAt_request :
  reviewStartedAt ISO8601.parse Fixtures.slow = Fixtures.day1
  /\ firstCommentLeadTime_of ISO8601.parse Fixtures.slow = of_Z 4350.
Proof. split; vm_compute; reflexivity. Qed.

Example lead_time_binary64 :
  Binary64.minutes 1704099600000%float 1704360600000%float = 4350%float.
Proof. vm_compute. reflexivity. Qed.

(** On doubles the lead times of the examples are those of the rational
    model; beyond 2^52 milliseconds the two can differ by one. *)
Example getLeadTimeMinutes_binary64 :
  Binary64.getLeadTimeMinutes 1704099600000 1704360600000 = Some 4350%Z
  /\ Binary64.getLeadTimeMinutes 1704099600000 1704445200000 = Some 5760%Z
  /\ Binary64.getLeadTimeMinutes 0 4503599627310000 = Some 75059993789%Z
  /\ Binary64.getLeadTimeMinutes (-367199254829999) 8640000000000000
     = Some 150119987581%Z
  /\ getLeadTimeMinutes (of_Z (-367199254829999)) (of_Z 8640000000000000)
     = of_Z 150119987580.
Proof. repeat split; vm_compute; reflexivity. Qed.

(** On doubles the strings of the examples are those of the rational model;
    69 minutes and 2088 minutes, whose quotients are halfway between two
    tenths in the rationals and just below as doubles, lose a tenth. *)
Example minToTimeString_binary64 :
  Binary64.minToTimeString 45%float = Some "45分"%string
  /\ Binary64.minToTimeString 90%float = Some "1.5時間"%string
  /\ Binary64.minToTimeString 1440%float = Some "24.0時間"%string
  /\ Binary64.minToTimeString 5760%float = Some "4.0日"%string
  /\ Binary64.minToTimeString PrimFloat.nan = Some "NaN分"%string
  /\ Binary64.minToTimeString 69%float = Some "1.1時間"%string
  /\ minToTimeString (of_Z 69) = "1.2時間"%string
  /\ Binary64.minToTimeString 2088%float = Some "1.4日"%string
  /\ minToTimeString (of_Z 2088) = "1.5日"%string.
Proof. repeat split; vm_compute; reflexivity. Qed.

(** Request on day 5 and first response on day 3: the creation. *)
Example reviewStartedAt_creation :
  reviewRequestedAt Fixtures.requested_late = Some Fixtures.day5
  /\ reviewStartedAt ISO8601.parse Fixtures.requested_late
     = pull_created_at (pull Fixtures.requested_late).
Proof. split; vm_compute; reflexivity. Qed.

Lemma approvedLeadTime_cases_witness :
  approvedLeadTime_of ISO8601.parse Fixtures.slow = of_Z 5760
  /\ approvedLeadTime_of ISO8601.parse Fixtures.slow <> NaN.
Proof.
  assert (Hc : new_Date ISO8601.parse (pull_created_at (pull Fixtures.slow))
               <> NaN) by discriminate.
  assert (He : forall e, In e (events Fixtures.slow) ->
                         new_Date ISO8601.parse (event_created_at e) <> NaN).
  { intros e [E|[]]. subst e. discriminate. }
  assert (Hr : forall r, In r (reviews Fixtures.slow) ->
                         review_state r = "APPROVED"%string ->
                         new_Date ISO8601.parse
                                  (nullish (review_submitted_at r) "")
                         <> NaN).
  { intros r [E|[]] _. subst r. discriminate. }
  destruct (proj2 (approvedLeadTime_cases ISO8601.parse Fixtures.slow
                     Hc He Hr)
                  (Fixtures.approval "bob" (Some Fixtures.day5)) eq_refl)
    as [_ [_ [s [Es [El Hn]]]]].
  split; [|exact Hn].
  injection Es as E. subst s. exact El.
Defined.

Lemma firstCommentedAt_earliest_witness :
  (forall t, is_response ISO8601.parse Fixtures.slow t -> t <> NaN)
  /\ earliest_response ISO8601.parse Fixtures.slow (of_Z 1704360600000)
  /\ firstCommentedAt_of ISO8601.parse Fixtures.slow
     = Some (of_Z 1704360600000).
Proof.
  assert (V : forall t, is_response ISO8601.parse Fixtures.slow t -> t <> NaN).
  { intros t Ht. apply In_responses in Ht. vm_compute in Ht.
    destruct Ht as [<-|[<-|[]]]; discriminate. }
  assert (M : earliest_response ISO8601.parse Fixtures.slow
                                (of_Z 1704360600000)).
  { split; [apply In_responses; vm_compute; now left|].
    split; [discriminate|].
    intros u Hu _. apply In_responses in Hu. vm_compute in Hu.
    destruct Hu as [<-|[<-|[]]]; reflexivity. }
  split; [exact V|]. split; [exact M|].
  exact (proj1 (firstCommentedAt_earliest ISO8601.parse Fixtures.slow V) _ M).
Defined.

(** The claim C5 as it is worded fails: the approval of day 3 is the only
    dated response, hence the minimum, and the first response is the
    invalid date of the pending review listed before it. *)
Lemma firstCommentedAt_invalid_first :
  ~ (forall t, earliest_response ISO8601.parse Fixtures.pending_first t ->
               firstCommentedAt_of ISO8601.parse Fixtures.pending_first
               = Some t).
Proof.
  intros H.
  assert (M : earliest_response ISO8601.parse Fixtures.pending_first
                                (of_Z 1704272400000)).
  { split; [apply In_responses; vm_compute; tauto|].
    split; [discriminate|].
    intros u Hu Hn. apply In_responses in Hu. vm_compute in Hu.
    destruct Hu as [<-|[<-|[]]]; [congruence | reflexivity]. }
  specialize (H _ M). vm_compute in H. discriminate H.
Qed.

Lemma no_response_no_flag_witness :
  firstCommentedAt_of ISO8601.parse Fixtures.author_only = None
  /\ firstCommentLeadTime_of ISO8601.parse Fixtures.author_only = NaN
  /\ gt (firstCommentLeadTime_of ISO8601.parse Fixtures.author_only)
        (of_Z 2880) = false
  /\ flag ISO8601.parse Fixtures.author_only = [].
Proof.
  apply (no_response_no_flag ISO8601.parse Fixtures.author_only).
  - intros c [<-|[]]. reflexivity.
  - intros r [].
Defined.

Example flag_slow_example :
  flag ISO8601.parse Fixtures.slow
  = [[VStr "Add export"; VStr "alice"; VStr "4.0日"]]%string
  /\ firstCommentLeadTime_of ISO8601.parse Fixtures.requested_late = of_Z 2880
  /\ flag ISO8601.parse Fixtures.requested_late = [].
Proof. repeat split; vm_compute; reflexivity. Qed.

Example keep_examples :
  map title
      (filter keep
         (snd (enrich_all ISO8601.parse ISO8601.format
                 [Fixtures.slow; Fixtures.release;
                  Fixtures.approval_without_date; Fixtures.same_second])))
  = ["Add export"; "Bump version"]%string.
Proof. vm_compute. reflexivity. Qed.

Example minToTimeString_examples :
  minToTimeString (of_Z 45) = "45分"%string
  /\ minToTimeString (of_Z 60) = "60分"%string
  /\ minToTimeString (of_Z 90) = "1.5時間"%string
  /\ minToTimeString (of_Z 1440) = "24.0時間"%string
  /\ minToTimeString (of_Z 4320) = "3.0日"%string
  /\ minToTimeString NaN = "NaN分"%string.
Proof. repeat split; vm_compute; reflexivity. Qed.

(** * Further properties of the code *)

(** ** Lead times of integer time values *)

Section LeadTimeFacts.

Local Open Scope Z_scope.

Lemma le_of_Z (x y : Z) : le (of_Z x) (of_Z y) = true <-> x <= y.
Proof. unfold of_Z. rewrite le_Num, <- Zle_Qle. reflexivity. Qed.

Lemma floor_half_quotient (d : Z) (c : positive) :
  Qfloor (inject_Z d / inject_Z (Zpos c) + (1 # 2))
  = (2 * d + Zpos c) / (2 * Zpos c).
Proof.
  rewrite Zdiv_Qdiv. apply Qfloor_comp.
  rewrite !inject_Z_plus, !inject_Z_mult.
  assert (Hc : ~ (inject_Z (Zpos c) == 0)%Q) by (unfold Qeq; simpl; lia).
  change (inject_Z 2) with 2%Q. field. exact Hc.
Qed.

Lemma round_of_quotient (d : Z) (c : positive) :
  round (Num (inject_Z d / inject_Z (Zpos c))) = Some (round_div d (Zpos c)).
Proof.
  unfold round_div. destruct (Z.leb_spec 0 d) as [Hd|Hd].
  - now apply round_quotient.
  - assert (Hc : (0 < inject_Z (Zpos c))%Q) by reflexivity.
    assert (Hneg : (inject_Z d / inject_Z (Zpos c) < 0)%Q).
    { apply Qlt_shift_div_r; [exact Hc|]. rewrite Qmult_0_l.
      change 0%Q with (inject_Z 0). now rewrite <- Zlt_Qlt. }
    unfold round.
    destruct (Qle_bool 0 (inject_Z d / inject_Z (Zpos c))) eqn:E.
    + apply Qle_bool_iff in E. exfalso. exact (Qlt_not_le _ _ Hneg E).
    + do 2 f_equal. rewrite <- (floor_half_quotient (- d) c).
      apply Qfloor_comp. rewrite inject_Z_opp.
      assert (Hc0 : ~ (inject_Z (Zpos c) == 0)%Q)
        by (unfold Qeq; simpl; lia).
      field. exact Hc0.
Qed.

Lemma lead_time_of_Z (from to : Z) :
  getLeadTimeMinutes (of_Z from) (of_Z to)
  = of_Z (round_div (to - from) 60000).
Proof.
  unfold getLeadTimeMinutes. rewrite lead_time_value.
  unfold divp, sub, of_Z. rewrite round_Qred.
  rewrite (round_comp (Qred (inject_Z to - inject_Z from) / inject_Z 60000)
                      (inject_Z (to - from) / inject_Z 60000)).
  - now rewrite round_of_quotient.
  - rewrite Qred_correct. unfold Zminus.
    rewrite inject_Z_plus, inject_Z_opp. reflexivity.
Qed.

Lemma round_div_nonneg (d c : Z) : 0 <= d -> 0 < c -> 0 <= round_div d c.
Proof.
  intros Hd Hc. unfold round_div.
  destruct (Z.leb_spec 0 d); [|lia]. apply Z.div_pos; lia.
Qed.

Lemma round_div_nonpos (d c : Z) : d < 0 -> 0 < c -> round_div d c <= 0.
Proof.
  intros Hd Hc. unfold round_div.
  destruct (Z.leb_spec 0 d); [lia|].
  assert (0 <= (2 * - d + c) / (2 * c)) by (apply Z.div_pos; lia). lia.
Qed.

Lemma round_div_mono (d d' c : Z) :
  0 < c -> d <= d' -> round_div d c <= round_div d' c.
Proof.
  intros Hc Hd.
  destruct (Z.leb_spec 0 d) as [H0|H0], (Z.leb_spec 0 d') as [H0'|H0'].
  - unfold round_div.
    destruct (Z.leb_spec 0 d), (Z.leb_spec 0 d'); try lia.
    apply Z.div_le_mono; lia.
  - lia.
  - pose proof (round_div_nonpos d c H0 Hc).
    pose proof (round_div_nonneg d' c H0' Hc). lia.
  - unfold round_div.
    destruct (Z.leb_spec 0 d), (Z.leb_spec 0 d'); try lia.
    assert ((2 * - d' + c) / (2 * c) <= (2 * - d + c) / (2 * c))
      by (apply Z.div_le_mono; lia).
    lia.
Qed.

Lemma round_div_exact (z : Z) : round_div z 1 = z.
Proof.
  unfold round_div. destruct (Z.leb_spec 0 z).
  - replace (2 * z + 1) with (1 + z * (2 * 1)) by lia.
    rewrite Z.div_add by lia. reflexivity.
  - replace (2 * - z + 1) with (1 + (- z) * (2 * 1)) by lia.
    rewrite Z.div_add by lia. simpl. lia.
Qed.

Lemma round_of_Z (z : Z) : round (of_Z z) = Some z.
Proof.
  unfold of_Z.
  rewrite (round_comp (inject_Z z) (inject_Z z / inject_Z 1)).
  - now rewrite round_of_quotient, round_div_exact.
  - change (inject_Z 1) with 1%Q. field.
Qed.

End LeadTimeFacts.

(** X1: the lead time does not decrease when the end moves later, nor when
    the start moves earlier; it is an integer, of the sign of [to - from]. *)
Theorem getLeadTimeMinutes_monotone (from from' to to' : Z) :
  (from' <= from)%Z -> (to <= to')%Z ->
  exists m m' : Z,
    getLeadTimeMinutes (of_Z from) (of_Z to) = of_Z m
    /\ getLeadTimeMinutes (of_Z from') (of_Z to') = of_Z m'
    /\ (m <= m')%Z
    /\ ((from <= to)%Z -> (0 <= m)%Z)
    /\ ((to < from)%Z -> (m <= 0)%Z).
Proof.
  intros Hf Ht. rewrite !lead_time_of_Z.
  do 2 eexists. split; [reflexivity|]. split; [reflexivity|].
  split; [apply round_div_mono; lia|]. split; intros H.
  - apply round_div_nonneg; lia.
  - apply round_div_nonpos; lia.
Qed.

Lemma getLeadTimeMinutes_monotone_witness :
  exists m m' : Z,
    getLeadTimeMinutes (of_Z 1704099600000) (of_Z 1704360600000) = of_Z m
    /\ getLeadTimeMinutes (of_Z 1704099600000) (of_Z 1704445200000) = of_Z m'
    /\ (m <= m')%Z
    /\ ((1704099600000 <= 1704360600000)%Z -> (0 <= m)%Z)
    /\ ((1704360600000 < 1704099600000)%Z -> (m <= 0)%Z).
Proof.
  apply (getLeadTimeMinutes_monotone 1704099600000 1704099600000
           1704360600000 1704445200000); lia.
Defined.

(** X2: an integer number of minutes up to 60, negative ones included, is
    printed exactly, followed by the unit of the minutes (for the integers
    that a number holds exactly, above [- 2^53]). *)
Theorem minToTimeString_integer_minutes (z : Z) :
  (- 9007199254740992 < z)%Z -> (z <= 60)%Z ->
  minToTimeString (of_Z z) = (Z_toString z ++ "分")%string.
Proof.
  intros _ Hz. rewrite minToTimeString_minutes.
  - now rewrite round_of_Z.
  - apply gt_Num_false. unfold of_Z. now rewrite <- Zle_Qle.
Qed.

Lemma minToTimeString_integer_minutes_witness :
  minToTimeString (of_Z (-5)) = "-5分"%string.
Proof. apply (minToTimeString_integer_minutes (-5)); lia. Defined.



(** ** The search *)

Lemma collect_from (pages : list (option (list Pull))) (acc : list Pull) :
  fold_left (fun pulls data => (pulls ++ nullish data [])%list) pages acc
  = (acc ++ List.concat (map (fun data => nullish data []) pages))%list.
Proof.
  revert acc. induction pages as [|d pages IH]; intros acc; simpl.
  - now rewrite app_nil_r.
  - rewrite IH. now rewrite app_assoc.
Qed.

(** X4: the pull requests collected from the pages of the search are the
    items of the pages, in the order of the pages and of each page, a page
    without data adding nothing; none is lost or repeated. *)
Theorem collect_pages (pages : list (option (list Pull))) :
  collect pages = List.concat (map (fun data => nullish data []) pages)
  /\ (forall before after data,
        collect (before ++ data :: after)
        = (collect before ++ nullish data [] ++ collect after)%list)
  /\ (forall x, In x (collect pages)
                <-> exists page, In (Some page) pages /\ In x page).
Proof.
  assert (E : forall ps, collect ps
                         = List.concat (map (fun data => nullish data []) ps))
    by (intros ps; unfold collect; now rewrite collect_from).
  split; [apply E|]. split.
  - intros before after data. rewrite !E, map_app, concat_app. reflexivity.
  - intros x. rewrite E, in_concat. split.
    + intros [l [Hl Hx]]. apply in_map_iff in Hl.
      destruct Hl as [[page|] [<- Hd]]; [eauto | destruct Hx].
    + intros [page [Hp Hx]]. exists page. split; [|exact Hx].
      apply in_map_iff. exists (Some page). auto.
Qed.

(** ** Records *)

Section RecordFacts.

Variable Date_parse : string -> option Z.
Variable dayjs_format : string -> string -> string.

Lemma truthy_true (s : string) : truthy s = true <-> s <> ""%string.
Proof. destruct s; simpl; split; congruence. Qed.

Lemma hd_error_In (A : Type) (l : list A) (x : A) :
  hd_error l = Some x -> In x l.
Proof. destruct l as [|a l]; simpl; intros E; [discriminate E|]. left. congruence. Qed.

Lemma firstCommentedAt_is_response (p : PullData) (t : Date) :
  firstCommentedAt_of Date_parse p = Some t -> is_response Date_parse p t.
Proof.
  unfold firstCommentedAt_of. intros E. apply hd_error_In in E.
  change (sort (fun a b => sub a b)) with (sort sub) in E.
  apply (proj1 (sort_In _ _)) in E.
  exact (proj1 (In_responses Date_parse p t) E).
Qed.

Lemma gt_of_Z (x y : Z) : gt (of_Z x) (of_Z y) = true <-> (y < x)%Z.
Proof. unfold of_Z. rewrite gt_Num, <- Zlt_Qlt. reflexivity. Qed.

(** X5: the labels of a record are the names of the labels of the pull
    request that are defined and not empty; a pull request that carries the
    excluded label is dropped by the filter, whatever its reviews. *)
Theorem labels_of_record (p : PullData) :
  (forall l, In l (labels (record_of Date_parse dayjs_format p))
             <-> In (Some l) (pull_labels (pull p)) /\ l <> ""%string)
  /\ (In (Some "案件"%string) (pull_labels (pull p)) ->
      keep (record_of Date_parse dayjs_format p) = false).
Proof.
  assert (L : forall l, In l (labels (record_of Date_parse dayjs_format p))
                        <-> In (Some l) (pull_labels (pull p))
                            /\ l <> ""%string).
  { intros l. simpl labels. rewrite in_flat_map. split.
    - intros [[x|] [Hin Hx]]; [|destruct Hx].
      destruct (truthy x) eqn:T; [|destruct Hx].
      destruct Hx as [<-|[]]. split; [exact Hin | now apply truthy_true].
    - intros [Hin Hne]. exists (Some l). split; [exact Hin|].
      apply truthy_true in Hne. rewrite Hne. now left. }
  split; [exact L|].
  intros H. unfold keep.
  destruct (startsWith _ _); [reflexivity|].
  assert (I : includes (labels (record_of Date_parse dayjs_format p))
                       "案件" = true).
  { apply includes_In. apply L. split; [exact H | discriminate]. }
  now rewrite I.
Qed.

(** X6: a pull request without a usable approval date (no APPROVED review,
    or the first one without [submitted_at]) is dropped by the filter; a
    record that the filter keeps comes from a pull request whose first
    APPROVED review has a [submitted_at], and its approved lead time is the
    lead time from the review start to that date, never the NaN of the
    missing approval. *)
Theorem kept_records_are_approved (p : PullData) :
  (truthy_opt (approvedAt p) = false ->
   keep (record_of Date_parse dayjs_format p) = false)
  /\ (keep (record_of Date_parse dayjs_format p) = true ->
      exists r s,
        first_approved p = Some r
        /\ review_submitted_at r = Some s /\ s <> ""%string
        /\ approvedLeadTime (record_of Date_parse dayjs_format p)
           = getLeadTimeMinutes
               (new_Date Date_parse (reviewStartedAt Date_parse p))
               (new_Date Date_parse s)).
Proof.
  assert (F : truthy_opt (approvedAt p) = false ->
              approvedDateTime (record_of Date_parse dayjs_format p)
              = ""%string).
  { simpl approvedDateTime. unfold format_if_truthy.
    destruct (approvedAt p) as [s|]; simpl; [|reflexivity].
    intros ->. reflexivity. }
  split.
  - intros H. unfold keep. rewrite (F H).
    destruct (startsWith _ _); [reflexivity|].
    destruct (includes _ _); reflexivity.
  - intros K. destruct (truthy_opt (approvedAt p)) eqn:T.
    + simpl approvedLeadTime. unfold approvedLeadTime_of.
      unfold approvedAt, first_approved in *.
      destruct (find is_approved (reviews p)) as [r|]; [|discriminate T].
      destruct (review_submitted_at r) as [s|] eqn:Es; [|discriminate T].
      simpl in T. rewrite T. exists r, s.
      split; [reflexivity|]. split; [exact Es|].
      split; [now apply truthy_true | reflexivity].
    + specialize (F eq_refl). unfold keep in K. rewrite F in K.
      destruct (startsWith _ _); [discriminate K|].
      destruct (includes _ _); discriminate K.
Qed.

(** X7: when the review request is taken as the review start, the
    first-comment lead time is an integer that is not negative. *)
Theorem request_start_nonnegative (p : PullData) :
  requested_before_response Date_parse p ->
  exists z, (0 <= z)%Z /\ firstCommentLeadTime_of Date_parse p = of_Z z.
Proof.
  intros H. apply requested_before_response_test in H.
  destruct H as [s [Er H]]. apply andb_true_iff in H. destruct H as [Ts Hlt].
  unfold firstCommentLeadTime_of.
  assert (Es : reviewStartedAt Date_parse p = s).
  { unfold reviewStartedAt. rewrite Er, Ts, Hlt. reflexivity. }
  rewrite Es. unfold lt in Hlt.
  destruct (firstCommentedAt_of Date_parse p) as [t|] eqn:Ef;
    [|discriminate Hlt].
  simpl new_Date_of in *.
  apply firstCommentedAt_is_response in Ef.
  destruct (is_response_cases Date_parse p t Ef) as [->|[b ->]];
    [discriminate Hlt|].
  destruct (new_Date_cases Date_parse s) as [En|[a En]]; rewrite En in *.
  - now rewrite gt_NaN_r in Hlt.
  - apply gt_of_Z in Hlt. rewrite lead_time_of_Z. eexists.
    split; [|reflexivity]. apply round_div_nonneg; lia.
Qed.

Lemma find_first (A : Type) (f : A -> bool) (before after : list A) (e : A) :
  (forall x, In x before -> f x = false) -> f e = true ->
  find f (before ++ e :: after) = Some e.
Proof.
  intros Hb He. induction before as [|x before IH]; simpl.
  - now rewrite He.
  - rewrite (Hb x (or_introl eq_refl)). apply IH.
    intros y Hy. apply Hb. now right.
Qed.

(** X8: when every response that is not the author's carries a valid date,
    the first APPROVED review is not the author's and the review start is a
    valid date, the first-comment lead time is at most the approved lead
    time, both integers. *)
Theorem first_comment_not_after_approval (p : PullData) (r : Review) :
  (forall t, is_response Date_parse p t -> t <> NaN) ->
  first_approved p = Some r ->
  review_user r <> pull_user (pull p) ->
  new_Date Date_parse (reviewStartedAt Date_parse p) <> NaN ->
  exists m n,
    firstCommentLeadTime_of Date_parse p = of_Z m
    /\ approvedLeadTime_of Date_parse p = of_Z n
    /\ (m <= n)%Z.
Proof.
  intros Hv Hr Hu Hs.
  assert (Hin : In r (reviews p))
    by (unfold first_approved in Hr; now apply find_some in Hr).
  assert (Ha : is_response Date_parse p
                 (new_Date Date_parse (nullish (review_submitted_at r) "")))
    by (right; exists r; auto).
  pose proof (Hv _ Ha) as Hna.
  destruct (review_submitted_at r) as [s|] eqn:Es;
    [|now rewrite new_Date_empty in Hna].
  simpl nullish in *.
  destruct (truthy s) eqn:Ts;
    [|now rewrite (new_Date_falsy Date_parse s Ts) in Hna].
  destruct (new_Date_cases Date_parse s) as [En|[za En]]; [congruence|].
  destruct (new_Date_cases Date_parse (reviewStartedAt Date_parse p))
    as [Er|[zr Er]]; [congruence|].
  assert (Hv' : forall t, In t (responses Date_parse p) -> t <> NaN)
    by (intros t Ht; apply Hv; now apply In_responses).
  pose proof (sort_head_earliest (responses Date_parse p) Hv') as H.
  unfold firstCommentLeadTime_of, approvedLeadTime_of, approvedAt.
  unfold first_approved in Hr. rewrite Hr, Es, Ts, Er, En.
  unfold firstCommentedAt_of.
  change (sort (fun a b => sub a b)) with (sort sub).
  apply In_responses in Ha.
  destruct (hd_error (sort sub (responses Date_parse p))) as [t0|].
  - destruct H as [H0 Hmin]. pose proof (Hmin _ Ha) as Hle.
    apply In_responses in H0. pose proof (Hv _ H0) as Hn0.
    destruct (is_response_cases Date_parse p t0 H0) as [->|[z0 ->]];
      [congruence|].
    rewrite En in Hle. apply le_of_Z in Hle.
    simpl new_Date_of. rewrite !lead_time_of_Z.
    do 2 eexists. split; [reflexivity|]. split; [reflexivity|].
    apply round_div_mono; lia.
  - rewrite H in Ha. destruct Ha.
Qed.

(** X9: only the first "review_requested" event is read: the events before
    it, the events after it and a repeated request change neither the
    record of the pull request nor its flagged line. *)
Theorem later_events_ignored (pl : Pull) (cs : list Comment)
    (rs : list Review) (before after : list Event) (e : Event) :
  (forall x, In x before -> is_review_requested x = false) ->
  is_review_requested e = true ->
  reviewRequestedAt {| pull := pl; comments := cs; reviews := rs;
                       events := before ++ e :: after |}
  = Some (event_created_at e)
  /\ record_of Date_parse dayjs_format
       {| pull := pl; comments := cs; reviews := rs;
          events := before ++ e :: after |}
     = record_of Date_parse dayjs_format
         {| pull := pl; comments := cs; reviews := rs; events := [e] |}
  /\ flag Date_parse
       {| pull := pl; comments := cs; reviews := rs;
          events := before ++ e :: after |}
     = flag Date_parse
         {| pull := pl; comments := cs; reviews := rs; events := [e] |}.
Proof.
  intros Hb He.
  assert (E1 : reviewRequestedAt {| pull := pl; comments := cs; reviews := rs;
                                    events := before ++ e :: after |}
               = Some (event_created_at e)).
  { unfold reviewRequestedAt. simpl events.
    now rewrite (find_first Event is_review_requested before after e Hb He). }
  assert (E2 : reviewRequestedAt {| pull := pl; comments := cs; reviews := rs;
                                    events := [e] |}
               = Some (event_created_at e)).
  { unfold reviewRequestedAt. simpl. now rewrite He. }
  split; [exact E1|].
  unfold record_of, flag, flagged_line, firstCommentLeadTime_of,
    approvedLeadTime_of, reviewStartedAt.
  rewrite E1, E2. split; reflexivity.
Qed.

End RecordFacts.

(** ** The report and the run *)

Section ReportFacts.

Local Open Scope string_scope.

Lemma quantileSeq_nonempty (x : number) (l : list number) (prob : Q) :
  exists v, quantileSeq (x :: l) prob = Some v.
Proof.
  unfold quantileSeq. destruct (existsb isNaN (x :: l)); [eauto|].
  destruct (Qeq_bool _ 0); eauto.
Qed.

Lemma quantileSeq_single (x : number) :
  quantileSeq [x] (1 # 2) = Some x /\ quantileSeq [x] (9 # 10) = Some x.
Proof. destruct x; split; reflexivity. Qed.

Lemma percentiles_nonempty (heading : string) (x : number) (l : list number) :
  exists p50 p90,
    quantileSeq (x :: l) (1 # 2) = Some p50
    /\ quantileSeq (x :: l) (9 # 10) = Some p90
    /\ percentiles heading (x :: l) = Some [percentile_block heading p50 p90].
Proof.
  destruct (quantileSeq_nonempty x l (1 # 2)) as [p50 E50].
  destruct (quantileSeq_nonempty x l (9 # 10)) as [p90 E90].
  exists p50, p90. unfold percentiles. rewrite E50, E90. auto.
Qed.

Lemma string_app_assoc (a b c : string) : (a ++ b) ++ c = a ++ b ++ c.
Proof. induction a as [|x a IH]; simpl; [reflexivity | now rewrite IH]. Qed.

Lemma substring_all (s : string) : substring 0 (String.length s) s = s.
Proof. induction s as [|c s IH]; simpl; [reflexivity | now rewrite IH]. Qed.

Lemma replace_unfold (pat by_ s : string) :
  replace pat by_ s
  = if String.prefix pat s
    then by_ ++ substring (String.length pat)
                  (String.length s - String.length pat) s
    else match s with
         | EmptyString => EmptyString
         | String c s' => String c (replace pat by_ s')
         end.
Proof. destruct s; reflexivity. Qed.

Lemma replace_skip (pat by_ : string) (c : ascii) (s : string) :
  String.prefix pat (String c s) = false ->
  replace pat by_ (String c s) = String c (replace pat by_ s).
Proof. intros H. rewrite replace_unfold, H. reflexivity. Qed.

Lemma no_point_head (c : ascii) (s : string) :
  negb (Ascii.eqb c ".") = true -> String.prefix ".." (String c s) = false.
Proof.
  intros H.
  change (String.prefix ".." (String c s))
    with (if ascii_dec "." c then String.prefix "." s else false).
  destruct (ascii_dec "." c) as [<-|N]; [discriminate H | reflexivity].
Qed.

Lemma replace_no_point (s : string) :
  no_point s = true -> replace ".." "~" s = s.
Proof.
  induction s as [|c s IH]; intros H; [reflexivity|].
  simpl in H. apply andb_true_iff in H. destruct H as [Hc Hs].
  rewrite (replace_skip _ _ c s (no_point_head c s Hc)). now rewrite IH.
Qed.

Lemma replace_range (a b : string) :
  no_point a = true -> replace ".." "~" (a ++ ".." ++ b) = a ++ "~" ++ b.
Proof.
  induction a as [|c a IH]; intros H.
  - change ("" ++ ".." ++ b) with (".." ++ b).
    rewrite replace_unfold, (prefix_app ".." b).
    change (String.length (".." ++ b) - String.length "..")%nat
      with (String.length b - 0)%nat.
    change (substring (String.length "..") (String.length b - 0) (".." ++ b))
      with (substring 0 (String.length b - 0) b).
    now rewrite Nat.sub_0_r, substring_all.
  - simpl in H. apply andb_true_iff in H. destruct H as [Hc Ha].
    change (String c a ++ ".." ++ b) with (String c (a ++ ".." ++ b)).
    rewrite (replace_skip _ _ c _ (no_point_head c _ Hc)).
    now rewrite IH.
Qed.

End ReportFacts.

(** X10: for records that survive the filter, at least one, the report is
    the header with their count and the two percentile blocks, first the
    time to the first comment and then the time to the approval; the "no
    results" message is not printed and [main] returns. *)
Theorem report_of_records (cfg : Config) (r : Result) (rs : list Result) :
  exists f50 f90 a50 a90,
    quantileSeq (map firstCommentLeadTime (r :: rs)) (1 # 2) = Some f50
    /\ quantileSeq (map firstCommentLeadTime (r :: rs)) (9 # 10) = Some f90
    /\ quantileSeq (map approvedLeadTime (r :: rs)) (1 # 2) = Some a50
    /\ quantileSeq (map approvedLeadTime (r :: rs)) (9 # 10) = Some a90
    /\ report cfg (r :: rs)
       = ([ header cfg (r :: rs);
            percentile_block "最初のコメントまでの時間" f50 f90;
            percentile_block "Approve までの時間" a50 a90 ],
          Returned).
Proof.
  destruct (percentiles_nonempty "最初のコメントまでの時間"
              (firstCommentLeadTime r) (map firstCommentLeadTime rs))
    as [f50 [f90 [Ef50 [Ef90 Ef]]]].
  destruct (percentiles_nonempty "Approve までの時間"
              (approvedLeadTime r) (map approvedLeadTime rs))
    as [a50 [a90 [Ea50 [Ea90 Ea]]]].
  exists f50, f90, a50, a90. repeat split; try assumption.
  unfold report. cbn [map]. rewrite Ef, Ea. reflexivity.
Qed.

(** X11: when a single record survives the filter, the 50th and the 90th
    percentile of each metric are the lead times of that record. *)
Theorem report_of_one_record (cfg : Config) (r : Result) :
  report cfg [r]
  = ([ header cfg [r];
       percentile_block "最初のコメントまでの時間"
         (firstCommentLeadTime r) (firstCommentLeadTime r);
       percentile_block "Approve までの時間"
         (approvedLeadTime r) (approvedLeadTime r) ],
     Returned).
Proof.
  unfold report, percentiles. cbn [map].
  destruct (quantileSeq_single (firstCommentLeadTime r)) as [-> ->].
  destruct (quantileSeq_single (approvedLeadTime r)) as [-> ->].
  reflexivity.
Qed.

Lemma report_nonempty_shape (cfg : Config) (r : Result) (rs : list Result) :
  exists out, report cfg (r :: rs) = (out, Returned).
Proof.
  destruct (percentiles_nonempty "最初のコメントまでの時間"
              (firstCommentLeadTime r) (map firstCommentLeadTime rs))
    as [f50 [f90 [_ [_ Ef]]]].
  destruct (percentiles_nonempty "Approve までの時間"
              (approvedLeadTime r) (map approvedLeadTime rs))
    as [a50 [a90 [_ [_ Ea]]]].
  unfold report. cbn [map]. rewrite Ef, Ea. eauto.
Qed.

Lemma report_returns (cfg : Config) (rs : list Result) :
  snd (report cfg rs) = Returned.
Proof.
  destruct rs as [|r rs]; [reflexivity|].
  destruct (report_nonempty_shape cfg r rs) as [out ->]. reflexivity.
Qed.

(** X12: once the lists of the pull requests are fetched, [main] returns
    ([quantileSeq] is only called on a sequence that is not empty): its
    console is the flagged lines of the pull requests, in their order,
    followed by the report on the records that the filter keeps.  A slow
    pull request is flagged even when the filter drops it afterwards. *)
Theorem main_console (Date_parse : string -> option Z)
    (dayjs_format : string -> string -> string)
    (cfg : Config) (pulls : list PullData) :
  main Date_parse dayjs_format cfg pulls
  = ((flat_map (flag Date_parse) pulls
        ++ fst (report cfg
                  (filter keep
                     (map (record_of Date_parse dayjs_format) pulls))))%list,
     Returned)
  /\ (forall p, In p pulls ->
                gt (firstCommentLeadTime_of Date_parse p) (of_Z 2880) = true ->
                In (flagged_line Date_parse p)
                   (fst (main Date_parse dayjs_format cfg pulls))).
Proof.
  assert (E : main Date_parse dayjs_format cfg pulls
              = ((flat_map (flag Date_parse) pulls
                    ++ fst (report cfg
                              (filter keep
                                 (map (record_of Date_parse dayjs_format)
                                      pulls))))%list,
                 Returned)).
  { unfold main. rewrite enrich_all_flat.
    pose proof (report_returns cfg
                  (filter keep (map (record_of Date_parse dayjs_format) pulls)))
      as R.
    destruct (report cfg _) as [summary how]. simpl in R. now subst how. }
  split; [exact E|].
  intros p Hin Hgt. rewrite E. simpl fst. apply in_or_app. left.
  apply in_flat_map. exists p. split; [exact Hin|].
  unfold flag. change (of_Z (60 * 24 * 2)) with (of_Z 2880).
  rewrite Hgt. now left.
Qed.

(** X13: when the search returns no item, whatever the number of pages, no
    pull request is collected and the run prints the header with a count of
    0 and the "no results" message. *)
Theorem run_without_items (Date_parse : string -> option Z)
    (dayjs_format : string -> string -> string)
    (cfg : Config) (api : Api) (pages : list (option (list Pull))) :
  (forall page, In (Some page) pages -> page = []) ->
  collect pages = []
  /\ run Date_parse dayjs_format cfg api pages
     = ([header cfg []; no_results], Returned).
Proof.
  intros H.
  assert (E : collect pages = []).
  { unfold collect. rewrite collect_from. simpl.
    induction pages as [|d pages IH]; [reflexivity|]. simpl.
    rewrite IH by (intros page Hp; apply H; now right).
    destruct d as [page|]; simpl; [|reflexivity].
    now rewrite (H page (or_introl eq_refl)). }
  split; [exact E|]. unfold run. rewrite E. reflexivity.
Qed.

Lemma run_without_items_witness :
  run ISO8601.parse ISO8601.format Fixtures.cfg
      {| listReviewComments := fun _ => [];
         listReviews := fun _ => [];
         listEvents := fun _ => [] |}
      [None; Some []]
  = ([header Fixtures.cfg []; no_results], Returned).
Proof.
  apply (run_without_items ISO8601.parse ISO8601.format Fixtures.cfg
           {| listReviewComments := fun _ => [];
              listReviews := fun _ => [];
              listEvents := fun _ => [] |}
           [None; Some []]).
  intros page [E|[E|[]]]; [discriminate E | now injection E].
Defined.

(** X14: for a range of dates written [from..to], [from] without a point,
    the header shows [from~to]; a range without any point is shown as it
    is. *)
Theorem header_range (cfg : Config) (results : list Result) :
  (forall a b, RANGE_OF_DATE cfg = (a ++ ".." ++ b)%string ->
               no_point a = true ->
               header cfg results
               = [ VStr (nl ++ REPO cfg ++ ": " ++ a ++ "~" ++ b ++ " ("
                            ++ Z_toString (Z.of_nat (List.length results))
                            ++ "件)")%string ])
  /\ (no_point (RANGE_OF_DATE cfg) = true ->
      header cfg results
      = [ VStr (nl ++ REPO cfg ++ ": " ++ RANGE_OF_DATE cfg ++ " ("
                   ++ Z_toString (Z.of_nat (List.length results))
                   ++ "件)")%string ]).
Proof.
  split.
  - intros a b E Ha. unfold header. rewrite E, (replace_range a b Ha).
    now rewrite !string_app_assoc.
  - intros H. unfold header. now rewrite (replace_no_point _ H).
Qed.

Example header_range_example :
  header Fixtures.cfg []
  = [ VStr (nl ++ "measure-review-time: 2024-01-01~2024-01-31 (0件)")%string ].
Proof. reflexivity. Qed.

Example labels_of_record_example :
  labels (record_of ISO8601.parse ISO8601.format MoreFixtures.labelled)
  = ["案件"; "bug"]%string
  /\ keep (record_of ISO8601.parse ISO8601.format MoreFixtures.labelled)
     = false.
Proof. split; reflexivity. Qed.

Lemma request_start_nonnegative_witness :
  exists z, (0 <= z)%Z
            /\ firstCommentLeadTime_of ISO8601.parse Fixtures.slow = of_Z z.
Proof.
  apply (request_start_nonnegative ISO8601.parse Fixtures.slow).
  exists (Fixtures.requested Fixtures.day1). split; reflexivity.
Defined.

Lemma first_comment_not_after_approval_witness :
  exists m n,
    firstCommentLeadTime_of ISO8601.parse Fixtures.slow = of_Z m
    /\ approvedLeadTime_of ISO8601.parse Fixtures.slow = of_Z n
    /\ (m <= n)%Z.
Proof.
  apply (first_comment_not_after_approval ISO8601.parse Fixtures.slow
           (Fixtures.approval "bob" (Some Fixtures.day5))).
  - intros t Ht. apply In_responses in Ht. vm_compute in Ht.
    destruct Ht as [<-|[<-|[]]]; discriminate.
  - reflexivity.
  - discriminate.
  - discriminate.
Defined.

Lemma later_events_ignored_witness :
  reviewRequestedAt MoreFixtures.rerequested = Some Fixtures.day1
  /\ record_of ISO8601.parse ISO8601.format MoreFixtures.rerequested
     = record_of ISO8601.parse ISO8601.format
         {| pull := pull MoreFixtures.rerequested;
            comments := comments MoreFixtures.rerequested;
            reviews := reviews MoreFixtures.rerequested;
            events := [Fixtures.requested Fixtures.day1] |}
  /\ flag ISO8601.parse MoreFixtures.rerequested
     = flag ISO8601.parse
         {| pull := pull MoreFixtures.rerequested;
            comments := comments MoreFixtures.rerequested;
            reviews := reviews MoreFixtures.rerequested;
            events := [Fixtures.requested Fixtures.day1] |}.
Proof.
  apply (later_events_ignored ISO8601.parse ISO8601.format
           (pull MoreFixtures.rerequested)
           (comments MoreFixtures.rerequested)
           (reviews MoreFixtures.rerequested)
           [ {| event_event := "labeled";
                event_created_at := Fixtures.day1 |} ]
           [Fixtures.requested Fixtures.day4]
           (Fixtures.requested Fixtures.day1)).
  - intros x [<-|[]]. reflexivity.
  - reflexivity.
Defined.
